(** * deno_links: the request-dispatch core of blog.tsx

    A shallow embedding of [createBlogHandler], [composeMiddlewares],
    [handler], [ga] and [redirects] from blog.tsx, and the properties of
    the dispatch they implement.

    Conventions of the embedding.
    - A [Request] carries its URL already parsed: [new URL(req.url)] is the
      projection [req_url].  URLs are the http(s) URLs a server receives, so
      the components are ASCII and a JS string length is [String.length].
    - An asynchronous function is a program ([Prog]) whose only interaction
      with the executor is [await ctx.next()]; running it yields a
      completion: a response, or a thrown error (a rejected promise).
    - A thrown value is an [Error] object with a message, as the casts of
      the source ([e as Error]) assume.
    - A string is the UTF-8 text of the JS string: an ASCII character is
      one [ascii], a character from U+0080 to U+00FF the two bytes that
      start with 0xC2 or 0xC3, any other character a sequence that starts
      with a greater byte.
    - Functions imported from deps.ts ([html], [serveDir], ...) and the
      process-wide constants [IS_DEV] and [HMR_CLIENT] are fields of [Deps]. *)

From Stdlib Require Import Ascii String.
From stdpp Require Import base option list strings gmap.

(** ** JavaScript strings and property lookup *)

Module Js.

(** [s.startsWith(p)] *)
Fixpoint startsWith (s p : string) : bool :=
  match p, s with
  | EmptyString, _ => true
  | String _ _, EmptyString => false
  | String a p', String b s' =>
      if Ascii.eqb a b then startsWith s' p' else false
  end.

(** [s.slice(1)] *)
Definition slice_1 (s : string) : string :=
  match s with
  | EmptyString => EmptyString
  | String _ s' => s'
  end.

(** [s.slice(0, -1)] *)
Fixpoint slice_0_neg1 (s : string) : string :=
  match s with
  | EmptyString => EmptyString
  | String _ EmptyString => EmptyString
  | String a s' => String a (slice_0_neg1 s')
  end.

(** The last UTF-16 unit of [s], if any. *)
Fixpoint last_char (s : string) : option Ascii.ascii :=
  match s with
  | EmptyString => None
  | String a EmptyString => Some a
  | String _ s' => last_char s'
  end.

(** [s.endsWith("/")] *)
Definition endsWith_slash (s : string) : bool :=
  match last_char s with
  | Some c => Ascii.eqb c "/"%char
  | None => false
  end.

(** [hay.includes(needle)] *)
Fixpoint includes (hay needle : string) : bool :=
  startsWith hay needle ||
  match hay with
  | EmptyString => false
  | String _ hay' => includes hay' needle
  end.

(** An [Error] object: its [name] and its [message]. *)
Record Error := mkError { name : string; message : string }.

Definition new_Error (msg : string) : Error := mkError "Error" msg.
Definition new_TypeError (msg : string) : Error := mkError "TypeError" msg.

(** How evaluating an expression completes: normally with a value, or
    abruptly with a thrown error. *)
Inductive Completion (A : Type) : Type :=
| Normal (a : A)
| Abrupt (e : Error).
Arguments Normal {A} a.
Arguments Abrupt {A} e.

(** The value of [record[key]] for a [Record<string, string>] written as
    an object literal: an own property, else a property inherited from
    [Object.prototype] (a function or an object, never a string), else
    [undefined]. *)
Inductive Property :=
| PString (s : string)
| PInherited
| PUndefined.

(** The property names a plain object inherits from [Object.prototype]
    in Deno, which removes [__proto__] from it. *)
Definition object_prototype_names : list string :=
  [ "constructor"; "hasOwnProperty"; "isPrototypeOf";
    "propertyIsEnumerable"; "toLocaleString"; "toString"; "valueOf";
    "__defineGetter__"; "__defineSetter__";
    "__lookupGetter__"; "__lookupSetter__" ].

Definition inherited (key : string) : bool :=
  bool_decide (key ∈ object_prototype_names).

Definition get (record : gmap string string) (key : string) : Property :=
  match record !! key with
  | Some s => PString s
  | None => if inherited key then PInherited else PUndefined
  end.

(** JS truthiness of a looked-up property. *)
Definition truthy (p : Property) : bool :=
  match p with
  | PString EmptyString => false
  | PString _ => true
  | PInherited => true
  | PUndefined => false
  end.

End Js.

(** ** URLs, requests and responses *)

Module Http.

(** A parsed URL.  [port] is the empty string for the default port;
    [search] and [hash] include their leading [?] and [#] when not empty. *)
Record URL := mkURL {
  protocol : string;
  hostname : string;
  port : string;
  pathname : string;
  search : string;
  hash : string
}.

Definition host (u : URL) : string :=
  match port u with
  | EmptyString => hostname u
  | p => hostname u +:+ ":" +:+ p
  end.

Definition origin (u : URL) : string := protocol u +:+ "//" +:+ host u.

Definition href (u : URL) : string :=
  origin u +:+ pathname u +:+ search u +:+ hash u.

(** [url.pathname = p], for a [p] that is already a normalised path (the
    only use in blog.tsx assigns a prefix of the current pathname). *)
Definition set_pathname (u : URL) (p : string) : URL :=
  mkURL (protocol u) (hostname u) (port u) p (search u) (hash u).

Record Request := mkRequest {
  req_method : string;
  req_url : URL;
  req_headers : list (string * string)
}.

Record Addr := mkAddr {
  transport : string;
  addr_hostname : string;
  addr_port : Z
}.

Record ConnInfo := mkConnInfo { localAddr : Addr; remoteAddr : Addr }.

(** A response: status, headers (lower-case names, in insertion order)
    and body ([None] for a null body). *)
Record Response := mkResponse {
  status : nat;
  headers : list (string * string);
  body : option string
}.

Definition has_header (name : string) (hs : list (string * string)) : bool :=
  existsb (fun h => String.eqb (fst h) name) hs.

Definition get_header (name : string) (r : Response) : option string :=
  snd <$> find (fun h => String.eqb (fst h) name) (headers r).

(** [new Response(body, { status, headers })], for headers already built:
    a string body gets the content type [text/plain;charset=UTF-8] unless
    the headers name one. *)
Definition new_Response (b : option string) (st : nat)
    (hs : list (string * string)) : Response :=
  match b with
  | Some _ =>
      if has_header "content-type" hs then mkResponse st hs b
      else mkResponse st (hs ++ [("content-type", "text/plain;charset=UTF-8")]) b
  | None => mkResponse st hs b
  end.

(** HTTP whitespace: tab, line feed, carriage return and space. *)
Definition is_http_whitespace (c : ascii) : bool :=
  Ascii.eqb c "009" || Ascii.eqb c "010" || Ascii.eqb c "013"
  || Ascii.eqb c " ".

Fixpoint strip_leading (s : string) : string :=
  match s with
  | EmptyString => EmptyString
  | String c s' => if is_http_whitespace c then strip_leading s' else s
  end.

Fixpoint strip_trailing (s : string) : string :=
  match s with
  | EmptyString => EmptyString
  | String c s' =>
      match strip_trailing s' with
      | EmptyString =>
          if is_http_whitespace c then EmptyString else String c EmptyString
      | rest => String c rest
      end
  end.

(** A header value as [Headers] stores it: without the HTTP whitespace
    at its two ends. *)
Definition normalize_header_value (s : string) : string :=
  strip_trailing (strip_leading s).

(** Every character of [s] is below U+0100, so that [s] converts to a
    [ByteString]. *)
Fixpoint is_ByteString (s : string) : bool :=
  match s with
  | EmptyString => true
  | String c s' =>
      if nat_of_ascii c <? 128 then is_ByteString s'
      else if Ascii.eqb c "194" || Ascii.eqb c "195" then
        match s' with
        | String d s'' =>
            (128 <=? nat_of_ascii d) && (nat_of_ascii d <? 192)
            && is_ByteString s''
        | EmptyString => false
        end
      else false
  end.

(** [s] holds a NUL, a line feed or a carriage return. *)
Fixpoint has_forbidden_byte (s : string) : bool :=
  match s with
  | EmptyString => false
  | String c s' =>
      Ascii.eqb c "000" || Ascii.eqb c "010" || Ascii.eqb c "013"
      || has_forbidden_byte s'
  end.

(** What [Headers] makes of a value: a [TypeError] when it does not
    convert to a [ByteString], else the normalized value, or a
    [TypeError] when that holds a forbidden byte. *)
Definition header_value (s : string) : Js.Completion string :=
  if is_ByteString s then
    if has_forbidden_byte (normalize_header_value s)
    then Js.Abrupt (Js.new_TypeError "Invalid header value")
    else Js.Normal (normalize_header_value s)
  else Js.Abrupt (Js.new_TypeError "Value is not a valid ByteString").

(** [new Headers(init)] for a record [init] whose names are header names
    written in lower case in the source. *)
Fixpoint new_Headers (init : list (string * string))
    : Js.Completion (list (string * string)) :=
  match init with
  | [] => Js.Normal []
  | (name, value) :: init' =>
      match header_value value with
      | Js.Abrupt e => Js.Abrupt e
      | Js.Normal v =>
          match new_Headers init' with
          | Js.Abrupt e => Js.Abrupt e
          | Js.Normal hs => Js.Normal ((name, v) :: hs)
          end
      end
  end.

(** [Response.redirect(url, status)] *)
Definition Response_redirect (url : string) (st : nat) : Response :=
  mkResponse st [("location", url)] None.

End Http.

Import Js Http.

(** ** types.d.ts and the programs that middlewares are *)

Module Blog.

(** A virtual DOM node, as the JSX factory [h] builds it. *)
Record VNode := mkVNode { markup : string }.

Record Link := mkLink {
  link_title : string;
  link_url : string;
  link_icon : option VNode;
  link_target : option string
}.

Record LinkSection := mkLinkSection {
  section_title : string;
  section_links : list Link
}.

(** [ogImage?: string | { url, twitterCard }] *)
Inductive OgImage :=
| OgString (s : string)
| OgObject (url twitterCard : string).

(** [favicon?: string | { light?, dark? }] *)
Inductive Favicon :=
| FaviconString (s : string)
| FaviconObject (light dark : option string).

Inductive Theme := dark | light | auto.

(** [BlogSettings] without its [middlewares] field (and without the
    UnoCSS configuration, which only [blog] reads).  An optional field
    that is absent is [None]. *)
Record BlogSettings := mkBlogSettings {
  title : option string;
  description : option string;
  avatar : option string;
  avatarClass : option string;
  cover : option string;
  coverTextColor : option string;
  author : option string;
  quickLinks : option (list Link);
  sections : option (list LinkSection);
  header : option VNode;
  footer : option VNode;
  style : option string;
  ogImage : option OgImage;
  lang : option string;
  canonicalUrl : option string;
  theme : option Theme;
  favicon : option Favicon;
  port : option nat;
  hostname : option string
}.

(** [BlogContext] without [next]: calling [ctx.next()] is the
    [AwaitNext] step of a program.  [state] shows a middleware the
    settings; the middleware list itself is not visible through it. *)
Record BlogContext := mkBlogContext {
  state : BlogSettings;
  connInfo : ConnInfo
}.

(** What a handler does besides computing its response. *)
Inductive Effect :=
| GaReport (id : string) (request : Request) (conn : ConnInfo)
           (res : Response) (err : option Error)
| ConsoleError (e : Error)
| HmrSocketAdd (request : Request)
| Custom (tag : string).

(** The body of an async [(req, ctx) => Promise<Response>] function.
    [AwaitNext onFulfilled onRejected] is [await ctx.next()] inside a
    [try]: the program continues with the response, or with the caught
    error; a call outside any [try] has [Throw] as [onRejected]. *)
Inductive Prog :=
| Return (res : Response)
| Throw (e : Error)
| AwaitNext (onFulfilled : Response -> Prog) (onRejected : Error -> Prog)
| Perform (eff : Effect) (k : Prog).

Definition lift (c : Completion Response) : Prog :=
  match c with
  | Normal res => Return res
  | Abrupt e => Throw e
  end.

Definition BlogMiddleware : Type := Request -> BlogContext -> Prog.

(** [BlogState extends BlogSettings] *)
Record BlogState := mkBlogState {
  settings : BlogSettings;
  middlewares : option (list BlogMiddleware)
}.

(** Which queued step a closure of [handlers] is: the middleware at a
    position of [state.middlewares], or the inner handler.  Ghost data,
    recorded in the trace only. *)
Inductive Label :=
| Middleware (position : nat)
| Inner.

Record Step := mkStep { label : Label; run : Prog }.

Inductive Event :=
| Invoked (l : Label)
| Did (eff : Effect).

(** The result of running a program: its completion, the handlers still
    queued, and what happened, in order. *)
Record Result := mkResult {
  completion : Completion Response;
  pending : list Step;
  trace : list Event
}.

Definition logged (evs : list Event) (r : Result) : Result :=
  mkResult (completion r) (pending r) (evs ++ trace r).

(** What calling [undefined] raises when [handlers.shift()] finds the
    queue empty. *)
Definition not_a_function : Error :=
  new_TypeError "handler is not a function".

(** Run the program [p] against the queue [handlers].  [AwaitNext] is
    [ctx.next()]: [handlers.shift()] pops the head, calling it runs that
    step against the rest of the queue, and the program resumes with
    what is left.  [fuel] bounds the nesting of [next()] calls; the
    length of the queue always suffices ([exec_total]). *)
Fixpoint exec (fuel : nat) {struct fuel} : Prog -> list Step -> option Result :=
  fix go (p : Prog) (handlers : list Step) {struct p} : option Result :=
    match p with
    | Return res => Some (mkResult (Normal res) handlers [])
    | Throw e => Some (mkResult (Abrupt e) handlers [])
    | Perform eff k => logged [Did eff] <$> go k handlers
    | AwaitNext onFulfilled onRejected =>
        match handlers with
        | [] => go (onRejected not_a_function) []
        | handler :: rest =>
            match fuel with
            | O => None
            | S fuel' =>
                match exec fuel' (run handler) rest with
                | None => None
                | Some r =>
                    logged (Invoked (label handler) :: trace r) <$>
                    match completion r with
                    | Normal res => go (onFulfilled res) (pending r)
                    | Abrupt e => go (onRejected e) (pending r)
                    end
                end
            end
        end
    end.

Definition run_queue (p : Prog) (handlers : list Step) : option Result :=
  exec (length handlers) p handlers.

(** ** deps.ts *)

Record LinkTag := mkLinkTag {
  href : string;
  rel : string;
  type : option string;
  media : option string
}.

Record Script := mkScript { src : string }.

(** The value of a meta tag: a string, [null] or [undefined]. *)
Inductive MetaValue :=
| MetaString (s : string)
| MetaNull
| MetaUndefined.

Definition meta_of (o : option string) : MetaValue :=
  match o with
  | Some s => MetaString s
  | None => MetaUndefined
  end.

(** [<Index state={blogState} />] *)
Inductive Body := Index (state : BlogSettings).

Record HtmlOptions := mkHtmlOptions {
  html_lang : string;
  html_scripts : option (list Script);
  html_links : list LinkTag;
  html_title : string;
  html_meta : list (string * MetaValue);
  html_styles : list string;
  html_body : Body
}.

(** The imports of blog.tsx that the request path calls, and the two
    module constants fixed when the process starts. *)
Record Deps := mkDeps {
  IS_DEV : bool;
  HMR_CLIENT : string;
  html : HtmlOptions -> Completion Response;
  serveDir : Request -> Completion Response;
  upgradeWebSocket : Request -> Completion Response
}.

(** ** blog.tsx *)

(** [new Response(`Internal server error: ${err.message}`, { status:
    500 })], the expression [errorHandler], [ga] and [redirects] share. *)
Definition internal_server_error (e : Error) : Response :=
  new_Response (Some ("Internal server error: " +:+ message e)) 500 [].

Definition errorHandler (err : Error) : Response :=
  internal_server_error err.

(** [const handler = handlers.shift()!; return handler();] *)
Definition shift_and_call (handlers : list Step) : option Result :=
  match handlers with
  | [] => Some (mkResult (Abrupt not_a_function) [] [])
  | handler :: handlers =>
      logged [Invoked (label handler)] <$> run_queue (run handler) handlers
  end.

(** The closure [composeMiddlewares(state)] returns, applied.  Each
    middleware is paired with its position in [state.middlewares] before
    the list is reversed, so that its step can be labelled. *)
Definition composeMiddlewares (state : BlogState) (req : Request)
    (connInfo : ConnInfo) (inner : Request -> BlogContext -> Prog)
    : option Result :=
  let mws := reverse <$> (imap (fun i mw => (i, mw)) <$> middlewares state) in
  let ctx := mkBlogContext (settings state) connInfo in
  let handlers :=
    match mws with
    | Some mws =>
        (fun mw => mkStep (Middleware (fst mw)) (snd mw req ctx)) <$> mws
    | None => []
    end ++ [mkStep Inner (inner req ctx)] in
  shift_and_call handlers.

Section WithDeps.

Variable deps : Deps.

(** The inner handler.  The favicon links are pushed after the canonical
    link; the options given to [html] are the spread of
    [sharedHtmlOptions] and the fields of the index page. *)
Definition handler (req : Request) (ctx : BlogContext) : Prog :=
  let blogState := state ctx in
  let pathname := pathname (req_url req) in
  let canonicalUrl :=
    match canonicalUrl blogState with
    | Some (String a s) => String a s
    | _ => origin (req_url req)
    end in
  let ogImage :=
    match ogImage blogState with
    | Some (OgString s) => Some s
    | Some (OgObject url _) => Some url
    | None => None
    end in
  let twitterCard :=
    match Blog.ogImage blogState with
    | Some (OgString _) => Some "summary_large_image"
    | Some (OgObject _ card) => Some card
    | None => None
    end in
  if IS_DEV deps && String.eqb pathname "/hmr.js" then
    Return (new_Response (Some (HMR_CLIENT deps)) 200
              [("content-type", "application/javascript")])
  else if IS_DEV deps && String.eqb pathname "/hmr" then
    match upgradeWebSocket deps req with
    | Normal response => Perform (HmrSocketAdd req) (Return response)
    | Abrupt e => Throw e
    end
  else
    let favicons :=
      match favicon blogState with
      | Some (FaviconString s) =>
          [mkLinkTag s "icon" (Some "image/x-icon") None]
      | Some (FaviconObject l d) =>
          match l with
          | Some (String a s) =>
              [mkLinkTag (String a s) "icon" (Some "image/x-icon")
                 (Some "(prefers-color-scheme:light)")]
          | _ => []
          end ++
          match d with
          | Some (String a s) =>
              [mkLinkTag (String a s) "icon" (Some "image/x-icon")
                 (Some "(prefers-color-scheme:dark)")]
          | _ => []
          end
      | None => []
      end in
    let links :=
      mkLinkTag (canonicalUrl +:+ pathname) "canonical" None None
      :: favicons in
    let theme_color :=
      match theme blogState with
      | Some dark => MetaString "#000"
      | _ => MetaNull
      end in
    let image := meta_of (from_option Some (cover blogState) ogImage) in
    if String.eqb pathname "/" then
      lift (html deps {|
        html_lang := default "en" (lang blogState);
        html_scripts :=
          if IS_DEV deps then Some [mkScript "/hmr.js"] else None;
        html_links := links;
        html_title := default "My Blog" (title blogState);
        html_meta :=
          [ ("theme-color", theme_color);
            ("description", meta_of (description blogState));
            ("og:title", meta_of (title blogState));
            ("og:description", meta_of (description blogState));
            ("og:image", image);
            ("twitter:title", meta_of (title blogState));
            ("twitter:description", meta_of (description blogState));
            ("twitter:image", image);
            ("twitter:card",
              match ogImage with
              | Some (String _ _) => meta_of twitterCard
              | _ => MetaUndefined
              end) ];
        html_styles :=
          match style blogState with
          | Some (String a s) => [String a s]
          | _ => []
          end;
        html_body := Index blogState
      |})
    else
      lift (serveDir deps req).

(** The function [createBlogHandler(state)] returns, applied. *)
Definition createBlogHandler (state : BlogState) (req : Request)
    (connInfo : ConnInfo) : option Result :=
  let inner := handler in
  let withMiddlewares := composeMiddlewares state in
  let url := req_url req in
  if bool_decide (1 < String.length (pathname url))
     && endsWith_slash (pathname url) then
    let url := set_pathname url (slice_0_neg1 (pathname url)) in
    Some (mkResult (Normal (Response_redirect (Http.href url) 307)) [] [])
  else
    withMiddlewares req connInfo inner.

End WithDeps.

(** [createReporter] is taken to return a reporter; its call in the
    [finally] block is the [GaReport] effect (the [start] time is left
    out). *)
Definition ga (gaKey : string) : Completion BlogMiddleware :=
  if String.length gaKey =? 0 then
    Abrupt (new_Error "GA key cannot be empty.")
  else
    Normal (fun request ctx =>
      AwaitNext
        (fun res =>
           Perform (GaReport gaKey request (connInfo ctx) res None)
             (Return res))
        (fun err =>
           let res := internal_server_error err in
           Perform (GaReport gaKey request (connInfo ctx) res (Some err))
             (Return res))).

(** [redirects(redirectMap)].  A looked-up value that is truthy but not
    a string has no [startsWith]: calling it raises a TypeError.  The
    headers of the 307 are built from the record [{ location }], which
    raises a TypeError on a value [Headers] refuses. *)
Definition redirects (redirectMap : gmap string string) : BlogMiddleware :=
  fun req ctx =>
    let pathname := pathname (req_url req) in
    let maybeRedirect := Js.get redirectMap pathname in
    let maybeRedirect :=
      if negb (truthy maybeRedirect)
      then Js.get redirectMap (slice_1 pathname)
      else maybeRedirect in
    if truthy maybeRedirect then
      match maybeRedirect with
      | PString target =>
          let target :=
            if negb (startsWith target "/") && negb (startsWith target "http")
            then "/" +:+ target
            else target in
          match new_Headers [("location", target)] with
          | Normal headers => Return (new_Response None 307 headers)
          | Abrupt e => Throw e
          end
      | _ =>
          Throw (new_TypeError "maybeRedirect.startsWith is not a function")
      end
    else
      AwaitNext
        (fun res => Return res)
        (fun e => Perform (ConsoleError e) (Return (internal_server_error e))).

End Blog.

Import Blog.

Arguments exec : simpl never.
Arguments run_queue : simpl never.

(** ** The chain as the specification describes it *)

Module Chain.

(** What a completed call leaves visible: its completion and its trace. *)
Definition Observation : Type := Completion Response * list Event.

Definition observe (r : Result) : Observation := (completion r, trace r).

(** Run [p] when every [ctx.next()] resolves to the fixed observation
    [next] of the rest of the chain. *)
Fixpoint with_next (next : Observation) (p : Prog) : Observation :=
  match p with
  | Return res => (Normal res, [])
  | Throw e => (Abrupt e, [])
  | Perform eff k =>
      let (c, evs) := with_next next k in (c, Did eff :: evs)
  | AwaitNext onFulfilled onRejected =>
      let (c, evs) :=
        match fst next with
        | Normal res => with_next next (onFulfilled res)
        | Abrupt e => with_next next (onRejected e)
        end in
      (c, snd next ++ evs)
  end.

(** The steps composed as nested wrappers: the head step runs first and
    its [next()] is the composition of the steps after it. *)
Fixpoint chain (steps : list Step) : Observation :=
  match steps with
  | [] => (Abrupt not_a_function, [])
  | step :: rest =>
      let (c, evs) := with_next (chain rest) (run step) in
      (c, Invoked (label step) :: evs)
  end.

(** The queued step of the middleware at [position]. *)
Definition step_of (req : Request) (ctx : BlogContext)
    (position : nat) (mw : BlogMiddleware) : Step :=
  mkStep (Middleware position) (mw req ctx).

(** The steps in the order the caller configured them, then the inner
    handler. *)
Definition configured_order (mws : list BlogMiddleware)
    (inner : Request -> BlogContext -> Prog)
    (req : Request) (ctx : BlogContext) : list Step :=
  imap (step_of req ctx) mws ++ [mkStep Inner (inner req ctx)].

(** The steps with the middlewares last-configured first, then the inner
    handler. *)
Definition reverse_order (mws : list BlogMiddleware)
    (inner : Request -> BlogContext -> Prog)
    (req : Request) (ctx : BlogContext) : list Step :=
  reverse (imap (step_of req ctx) mws) ++ [mkStep Inner (inner req ctx)].

(** ** The middleware contract *)

(** [p] never calls [ctx.next()]. *)
Inductive NoNext : Prog -> Prop :=
| NoNext_Return res : NoNext (Return res)
| NoNext_Throw e : NoNext (Throw e)
| NoNext_Perform eff k : NoNext k -> NoNext (Perform eff k).

(** [p] calls [ctx.next()] at most once on every path. *)
Inductive AtMostOnce : Prog -> Prop :=
| AtMostOnce_Return res : AtMostOnce (Return res)
| AtMostOnce_Throw e : AtMostOnce (Throw e)
| AtMostOnce_Perform eff k : AtMostOnce k -> AtMostOnce (Perform eff k)
| AtMostOnce_AwaitNext onFulfilled onRejected :
    (forall res, NoNext (onFulfilled res)) ->
    (forall e, NoNext (onRejected e)) ->
    AtMostOnce (AwaitNext onFulfilled onRejected).

(** [p] completes with [c] of its own, without calling [ctx.next()]. *)
Inductive Completes : Prog -> Completion Response -> Prop :=
| Completes_Return res : Completes (Return res) (Normal res)
| Completes_Throw e : Completes (Throw e) (Abrupt e)
| Completes_Perform eff k c : Completes k c -> Completes (Perform eff k) c.

(** [p] short-circuits: it returns the response [res] of its own without
    calling [ctx.next()]. *)
Definition Answers (p : Prog) (res : Response) : Prop :=
  Completes p (Normal res).

(** [p] raises [e] of its own without calling [ctx.next()]. *)
Definition Raises (p : Prog) (e : Error) : Prop :=
  Completes p (Abrupt e).

(** [p] calls [ctx.next()] once and, when that completes with [c],
    completes with [c] itself. *)
Inductive PassesOn (c : Completion Response) : Prog -> Prop :=
| PassesOn_AwaitNext onFulfilled onRejected :
    Completes
      match c with
      | Normal res => onFulfilled res
      | Abrupt e => onRejected e
      end c ->
    PassesOn c (AwaitNext onFulfilled onRejected)
| PassesOn_Perform eff k : PassesOn c k -> PassesOn c (Perform eff k).

(** [p] delegates: it calls [ctx.next()] once and returns the response
    that call resolves to. *)
Definition Delegates (p : Prog) : Prop :=
  forall res, PassesOn (Normal res) p.

(** [p] forwards: it calls [ctx.next()] once, outside any [try], and
    completes the way that call does. *)
Definition Forwards (p : Prog) : Prop :=
  forall c, PassesOn c p.

(** [await ctx.next()] and nothing else: its completion is what
    [next()] resolves to, or the error it raises. *)
Definition await_next : Prog := AwaitNext Return Throw.

(** The trailing-separator test of the normalizer. *)
Definition has_trailing_slash (req : Request) : Prop :=
  1 < String.length (pathname (req_url req))
  /\ endsWith_slash (pathname (req_url req)) = true.

(** The labels of the handlers a trace shows invoked, in order. *)
Definition invocations (evs : list Event) : list Label :=
  omap (fun ev => match ev with Invoked l => Some l | Did _ => None end) evs.

(** Where the terminal response of a request comes from. *)
Inductive Source :=
| FromNormalizer
| FromMiddleware (position : nat)
| FromInner.

(** The chain answers with [res] at [src]: the middleware at that
    position short-circuits with [res] and every middleware configured
    after it delegates; or every middleware delegates and the inner
    handler returns [res]. *)
Definition answered_by (mws : list BlogMiddleware)
    (inner : Request -> BlogContext -> Prog)
    (req : Request) (ctx : BlogContext)
    (src : Source) (res : Response) : Prop :=
  match src with
  | FromNormalizer => False
  | FromMiddleware i =>
      (exists mw, mws !! i = Some mw /\ Answers (mw req ctx) res)
      /\ forall j mw, i < j -> mws !! j = Some mw -> Delegates (mw req ctx)
  | FromInner =>
      Answers (inner req ctx) res
      /\ forall j mw, mws !! j = Some mw -> Delegates (mw req ctx)
  end.

(** The handlers invoked when the response comes from [src], for [n]
    configured middlewares: in order, each once. *)
Definition invoked_through (n : nat) (src : Source) : list Label :=
  match src with
  | FromNormalizer => []
  | FromMiddleware i => Middleware <$> reverse (seq i (n - i))
  | FromInner => (Middleware <$> reverse (seq 0 n)) ++ [Inner]
  end.

(** The response [res] to [req] comes from [src]. *)
Definition ProducedBy (deps : Deps) (state : BlogState) (req : Request)
    (conn : ConnInfo) (src : Source) (res : Response) : Prop :=
  match src with
  | FromNormalizer =>
      has_trailing_slash req
      /\ res = Response_redirect
                 (Http.href (set_pathname (req_url req)
                               (slice_0_neg1 (pathname (req_url req)))))
                 307
  | _ =>
      ~ has_trailing_slash req
      /\ answered_by (default [] (middlewares state)) (handler deps) req
           (mkBlogContext (settings state) conn) src res
  end.

(** The contract a middleware is expected to keep on [req]: answer
    without calling [next()], or delegate. *)
Definition keeps_contract (req : Request) (ctx : BlogContext)
    (mw : BlogMiddleware) : Prop :=
  (exists res, Answers (mw req ctx) res) \/ Delegates (mw req ctx).

End Chain.

Import Chain.

Arguments invocations : simpl never.

(** ** Sample inputs, after blog_test.ts *)

Module Sample.

Definition CONN_INFO : ConnInfo :=
  mkConnInfo (mkAddr "tcp" "0.0.0.0" 8000%Z) (mkAddr "tcp" "0.0.0.0" 8001%Z).

(** [new Request("https://blog.deno.dev" + path + search)] *)
Definition request (path search : string) : Request :=
  mkRequest "GET" (mkURL "https:" "blog.deno.dev" "" path search "") [].

Definition BLOG_SETTINGS : BlogSettings :=
  {| title := Some "Test blog";
     description := Some "This is some description.";
     avatar := None; avatarClass := None; cover := None;
     coverTextColor := None; author := Some "The author";
     quickLinks := None; sections := None; header := None;
     footer := None; style := None; ogImage := None;
     lang := Some "en-GB"; canonicalUrl := None; theme := None;
     favicon := None; port := None; hostname := None |}.

Definition ctx : BlogContext := mkBlogContext BLOG_SETTINGS CONN_INFO.

Definition with_middlewares (mws : list BlogMiddleware) : BlogState :=
  mkBlogState BLOG_SETTINGS (Some mws).

(** The redirect map of blog_test.ts. *)
Definition redirect_map : gmap string string :=
  <["/to_second" := "second"]>
    (<["/to_second_with_slash" := "/second"]>
       (<["/external_redirect" := "https://example.com"]>
          (<["second.html" := "second"]> ∅))).

Definition page (content : string) : Response :=
  mkResponse 200 [("content-type", "text/html; charset=utf-8")] (Some content).

Definition file (content : string) : Response :=
  mkResponse 200 [("content-type", "image/png")] (Some content).

(** The [redirects] middleware blog_test.ts configures. *)
Definition redirects_test : BlogMiddleware := redirects redirect_map.

(** The middleware of [ga("GA-ANALYTICS-KEY")]. *)
Definition ga_test : BlogMiddleware :=
  match ga "GA-ANALYTICS-KEY" with
  | Normal mw => mw
  | Abrupt e => fun _ _ => Throw e
  end.

(** Collaborators that always succeed. *)
Definition deps (is_dev : bool) : Deps :=
  {| IS_DEV := is_dev;
     HMR_CLIENT := "let socket;" (* the first line of the script *);
     html := fun options => Normal (page (html_title options));
     serveDir := fun req => Normal (file (pathname (req_url req)));
     upgradeWebSocket := fun _ => Normal (mkResponse 101 [] None) |}.

(** Collaborators whose renderer raises. *)
Definition failing_deps : Deps :=
  {| IS_DEV := false;
     HMR_CLIENT := "let socket;";
     html := fun _ => Abrupt (new_Error "render failed");
     serveDir := fun req => Normal (file (pathname (req_url req)));
     upgradeWebSocket := fun _ => Normal (mkResponse 101 [] None) |}.

(** [async (_, ctx) => { log(tag + ":before"); const res = await
    ctx.next(); log(tag + ":after"); return res; }] *)
Definition around (tag : string) : BlogMiddleware :=
  fun _ _ =>
    Perform (Custom (tag +:+ ":before"))
      (AwaitNext
         (fun res => Perform (Custom (tag +:+ ":after")) (Return res))
         Throw).

(** [async (_, ctx) => { await ctx.next(); return await ctx.next(); }] *)
Definition twice : BlogMiddleware :=
  fun _ _ => AwaitNext (fun _ => AwaitNext Return Throw) Throw.

(** [async (_, ctx) => await ctx.next()] *)
Definition forward : BlogMiddleware :=
  fun _ _ => AwaitNext Return Throw.

(** [async () => { throw new Error(msg) }] *)
Definition failing (msg : string) : BlogMiddleware :=
  fun _ _ => Throw (new_Error msg).

End Sample.

(** ** Start-up, and the middlewares blog.tsx ships *)

Module Startup.

(** The state of [{ ...undefined }]: no setting, no middleware list. *)
Definition no_settings : BlogSettings :=
  {| title := None; description := None; avatar := None;
     avatarClass := None; cover := None; coverTextColor := None;
     author := None; quickLinks := None; sections := None; header := None;
     footer := None; style := None; ogImage := None; lang := None;
     canonicalUrl := None; theme := None; favicon := None; port := None;
     hostname := None |}.

(** [configureBlog(_url, _isDev, settings?)]: the state is a copy of the
    settings; [settings] is [None] when the argument is left out. *)
Definition configureBlog (_url : string) (_isDev : bool)
    (settings : option BlogState) : BlogState :=
  match settings with
  | Some s => mkBlogState (Blog.settings s) (middlewares s)
  | None => mkBlogState no_settings None
  end.

(** The middlewares blog.tsx exports: [redirects(redirectMap)] and the
    function [ga(gaKey)] returns. *)
Inductive Shipped : BlogMiddleware -> Prop :=
| Shipped_redirects redirectMap : Shipped (redirects redirectMap)
| Shipped_ga gaKey mw : ga gaKey = Normal mw -> Shipped mw.

(** The methods of [Object.prototype] the language standard defines: a
    plain object has each of them as an inherited property. *)
Definition standard_methods : list string :=
  [ "constructor"; "hasOwnProperty"; "isPrototypeOf";
    "propertyIsEnumerable"; "toLocaleString"; "toString"; "valueOf" ].

(** The order in which [composeMiddlewares] queues [n] middlewares and the
    inner handler. *)
Definition queue_order (n : nat) : list Label :=
  (Middleware <$> reverse (seq 0 n)) ++ [Inner].

(** The location [redirects] sends for a target. *)
Definition location_of (target : string) : string :=
  if startsWith target "/" || startsWith target "http"
  then target else "/" +:+ target.

(** The outcome of the 307 branch of [redirects] for a location: the
    response with that location as [Headers] stores it, or the TypeError
    of a value [Headers] refuses. *)
Definition redirect_to (location : string) : Prog :=
  match header_value location with
  | Normal v => Return (mkResponse 307 [("location", v)] None)
  | Abrupt e => Throw e
  end.

(** No character of [s] is HTTP whitespace. *)
Fixpoint no_whitespace (s : string) : bool :=
  match s with
  | EmptyString => true
  | String c s' => negb (is_http_whitespace c) && no_whitespace s'
  end.

(** The value recorded for the meta tag [name]. *)
Definition meta_value (name : string) (options : HtmlOptions)
    : option MetaValue :=
  snd <$> find (fun m => String.eqb (fst m) name) (html_meta options).

End Startup.

Import Startup.

(** * Properties *)

(** ** The executor *)

Section Executor.

Implicit Types (p : Prog) (handlers rest : list Step) (r : Result).

Lemma exec_Return fuel res handlers :
  exec fuel (Return res) handlers = Some (mkResult (Normal res) handlers []).
Proof. destruct fuel; reflexivity. Qed.

Lemma exec_Throw fuel e handlers :
  exec fuel (Throw e) handlers = Some (mkResult (Abrupt e) handlers []).
Proof. destruct fuel; reflexivity. Qed.

Lemma exec_Perform fuel eff k handlers :
  exec fuel (Perform eff k) handlers
  = logged [Did eff] <$> exec fuel k handlers.
Proof. destruct fuel; reflexivity. Qed.

Lemma exec_AwaitNext_nil fuel f g :
  exec fuel (AwaitNext f g) [] = exec fuel (g not_a_function) [].
Proof. destruct fuel; reflexivity. Qed.

Lemma exec_AwaitNext_cons fuel f g handler rest :
  exec (S fuel) (AwaitNext f g) (handler :: rest)
  = match exec fuel (run handler) rest with
    | None => None
    | Some r =>
        logged (Invoked (label handler) :: trace r) <$>
        match completion r with
        | Normal res => exec (S fuel) (f res) (pending r)
        | Abrupt e => exec (S fuel) (g e) (pending r)
        end
    end.
Proof. reflexivity. Qed.

(** With fuel for the whole queue the run completes, and it only ever
    consumes the queue from the front. *)
Lemma exec_total fuel : forall p handlers,
  length handlers <= fuel ->
  exists r, exec fuel p handlers = Some r
            /\ length (pending r) <= length handlers.
Proof.
  induction fuel as [|fuel IH].
  - induction p as [res|e|f IHf g IHg|eff k IHk]; intros handlers Hlen.
    + rewrite exec_Return. eauto.
    + rewrite exec_Throw. eauto.
    + destruct handlers; [|simpl in Hlen; lia].
      rewrite exec_AwaitNext_nil. apply IHg. simpl; lia.
    + rewrite exec_Perform.
      destruct (IHk handlers Hlen) as (r & -> & Hr). simpl. eauto.
  - induction p as [res|e|f IHf g IHg|eff k IHk]; intros handlers Hlen.
    + rewrite exec_Return. eauto.
    + rewrite exec_Throw. eauto.
    + destruct handlers as [|handler rest].
      * rewrite exec_AwaitNext_nil. apply IHg. simpl; lia.
      * rewrite exec_AwaitNext_cons. simpl in Hlen.
        destruct (IH (run handler) rest) as (r & -> & Hr); [lia|].
        destruct (completion r) as [res|e].
        -- destruct (IHf res (pending r)) as (r' & -> & Hr'); [lia|].
           simpl. eexists; split; [reflexivity|]. simpl. lia.
        -- destruct (IHg e (pending r)) as (r' & -> & Hr'); [lia|].
           simpl. eexists; split; [reflexivity|]. simpl. lia.
    + rewrite exec_Perform.
      destruct (IHk handlers Hlen) as (r & -> & Hr). simpl. eauto.
Qed.

(** Fuel beyond the length of the queue changes nothing. *)
Lemma exec_fuel fuel : forall fuel' p handlers,
  length handlers <= fuel -> length handlers <= fuel' ->
  exec fuel p handlers = exec fuel' p handlers.
Proof.
  induction fuel as [|fuel IH]; intros fuel'.
  - induction p as [res|e|f IHf g IHg|eff k IHk]; intros handlers H1 H2.
    + by rewrite !exec_Return.
    + by rewrite !exec_Throw.
    + destruct handlers; [|simpl in H1; lia].
      rewrite !exec_AwaitNext_nil. by apply IHg.
    + rewrite !exec_Perform. by rewrite IHk.
  - induction p as [res|e|f IHf g IHg|eff k IHk]; intros handlers H1 H2.
    + by rewrite !exec_Return.
    + by rewrite !exec_Throw.
    + destruct handlers as [|handler rest].
      * rewrite !exec_AwaitNext_nil. by apply IHg.
      * destruct fuel' as [|fuel']; [simpl in H2; lia|].
        rewrite !exec_AwaitNext_cons. simpl in H1, H2.
        rewrite (IH fuel' (run handler) rest) by lia.
        destruct (exec_total fuel' (run handler) rest) as (r & -> & Hr);
          [lia|].
        destruct (completion r) as [res|e].
        -- rewrite IHf by lia. done.
        -- rewrite IHg by lia. done.
    + rewrite !exec_Perform. by rewrite IHk.
Qed.

(** The equations of [run_queue]. *)
Lemma run_queue_Return res handlers :
  run_queue (Return res) handlers
  = Some (mkResult (Normal res) handlers []).
Proof. apply exec_Return. Qed.

Lemma run_queue_Throw e handlers :
  run_queue (Throw e) handlers = Some (mkResult (Abrupt e) handlers []).
Proof. apply exec_Throw. Qed.

Lemma run_queue_Perform eff k handlers :
  run_queue (Perform eff k) handlers
  = logged [Did eff] <$> run_queue k handlers.
Proof. apply exec_Perform. Qed.

Lemma run_queue_AwaitNext_nil f g :
  run_queue (AwaitNext f g) [] = run_queue (g not_a_function) [].
Proof. apply exec_AwaitNext_nil. Qed.

Lemma run_queue_total p handlers :
  exists r, run_queue p handlers = Some r
            /\ length (pending r) <= length handlers.
Proof. apply exec_total. lia. Qed.

Lemma run_queue_AwaitNext_cons f g handler rest :
  run_queue (AwaitNext f g) (handler :: rest)
  = r ← run_queue (run handler) rest;
    logged (Invoked (label handler) :: trace r) <$>
    match completion r with
    | Normal res => run_queue (f res) (pending r)
    | Abrupt e => run_queue (g e) (pending r)
    end.
Proof.
  unfold run_queue. cbn [length]. rewrite exec_AwaitNext_cons.
  destruct (exec_total (length rest) (run handler) rest) as (r & -> & Hr);
    [lia|].
  cbn. destruct (completion r);
    (erewrite exec_fuel; [reflexivity | simpl; lia | lia]).
Qed.

End Executor.

(** ** The queue against the nested composition *)

Section Onion.

Implicit Types (p : Prog) (handlers rest : list Step) (r : Result).

Lemma observe_logged evs r :
  observe (logged evs r) = (completion r, evs ++ trace r).
Proof. reflexivity. Qed.

(** A program that never calls [next()] leaves the queue alone, and what
    [next()] would resolve to does not matter. *)
Lemma run_queue_NoNext p handlers next :
  NoNext p ->
  exists r, run_queue p handlers = Some r
            /\ pending r = handlers /\ observe r = with_next next p.
Proof.
  induction 1 as [res|e|eff k Hk (r & Hr & Hp & Ho)].
  - rewrite run_queue_Return. eauto.
  - rewrite run_queue_Throw. eauto.
  - rewrite run_queue_Perform, Hr. cbn.
    eexists; split; [reflexivity|]. split; [done|].
    rewrite observe_logged. unfold observe in Ho.
    destruct (with_next next k) as [c evs]. by inversion Ho.
Qed.

(** When every program calls [next()] at most once, running against the
    queue is running inside the nested composition of the queue. *)
Lemma run_queue_chain handlers : forall p,
  AtMostOnce p ->
  Forall (fun step => AtMostOnce (run step)) handlers ->
  exists r, run_queue p handlers = Some r
            /\ observe r = with_next (chain handlers) p.
Proof.
  induction handlers as [|handler rest IH]; intros p Hp Hq.
  - induction Hp as [res|e|eff k Hk (r & Hr & Ho)|f g Hf Hg].
    + rewrite run_queue_Return. eauto.
    + rewrite run_queue_Throw. eauto.
    + rewrite run_queue_Perform, Hr. cbn.
      eexists; split; [reflexivity|]. rewrite observe_logged.
      unfold observe in Ho. destruct (with_next _ k). by inversion Ho.
    + rewrite run_queue_AwaitNext_nil.
      destruct (run_queue_NoNext (g not_a_function) [] (chain [])
                  (Hg _)) as (r & Hr & _ & Ho).
      exists r. split; [done|]. rewrite Ho. cbn.
      by destruct (with_next _ _).
  - induction Hp as [res|e|eff k Hk (r & Hr & Ho)|f g Hf Hg].
    + rewrite run_queue_Return. eauto.
    + rewrite run_queue_Throw. eauto.
    + rewrite run_queue_Perform, Hr. cbn.
      eexists; split; [reflexivity|]. rewrite observe_logged.
      unfold observe in Ho. destruct (with_next _ k). by inversion Ho.
    + inversion Hq as [|? ? Hh Hrest]; subst.
      rewrite run_queue_AwaitNext_cons.
      destruct (IH (run handler) Hh Hrest) as (r1 & -> & Ho1). cbn.
      unfold observe in Ho1.
      destruct (with_next (chain rest) (run handler)) as [c1 evs1] eqn:E.
      inversion Ho1 as [[Hc Ht]]. cbn. rewrite Hc.
      destruct c1 as [res|e].
      * destruct (run_queue_NoNext (f res) (pending r1)
                    (Normal res, Invoked (label handler) :: evs1)
                    (Hf res)) as (r2 & -> & _ & Ho2).
        cbn. eexists; split; [reflexivity|]. rewrite observe_logged, Ht.
        unfold observe in Ho2. destruct (with_next _ (f res)).
        by inversion Ho2.
      * destruct (run_queue_NoNext (g e) (pending r1)
                    (Abrupt e, Invoked (label handler) :: evs1)
                    (Hg e)) as (r2 & -> & _ & Ho2).
        cbn. eexists; split; [reflexivity|]. rewrite observe_logged, Ht.
        unfold observe in Ho2. destruct (with_next _ (g e)).
        by inversion Ho2.
Qed.

Lemma shift_and_call_chain handlers :
  Forall (fun step => AtMostOnce (run step)) handlers ->
  exists r, shift_and_call handlers = Some r /\ observe r = chain handlers.
Proof.
  destruct handlers as [|handler rest]; intros Hq.
  - cbn. eauto.
  - inversion Hq as [|? ? Hh Hrest]; subst. cbn [shift_and_call chain].
    destruct (run_queue_chain rest (run handler) Hh Hrest) as (r & -> & Ho).
    cbn. eexists; split; [reflexivity|]. rewrite observe_logged.
    rewrite <- Ho. reflexivity.
Qed.

(** The queue [composeMiddlewares] builds. *)
Lemma composeMiddlewares_queue state req conn inner :
  composeMiddlewares state req conn inner
  = shift_and_call
      (reverse_order (default [] (middlewares state)) inner req
         (mkBlogContext (settings state) conn)).
Proof.
  unfold composeMiddlewares, reverse_order.
  destruct (middlewares state) as [mws|]; cbn; [|reflexivity].
  f_equal. f_equal. rewrite fmap_reverse. f_equal.
  rewrite fmap_imap. reflexivity.
Qed.

(** Every call of the executor, and of the handler, completes. *)
Lemma composeMiddlewares_total state req conn inner :
  exists r, composeMiddlewares state req conn inner = Some r.
Proof.
  rewrite composeMiddlewares_queue.
  destruct (reverse_order _ _ _ _) as [|handler rest]; cbn; [eauto|].
  destruct (run_queue_total (run handler) rest) as (r & -> & _).
  cbn. eauto.
Qed.

Lemma createBlogHandler_total deps state req conn :
  exists r, createBlogHandler deps state req conn = Some r.
Proof.
  unfold createBlogHandler.
  destruct (_ && _); [eauto|]. apply composeMiddlewares_total.
Qed.

End Onion.

(** ** Order of execution *)

Section Order.

Lemma chain_head step rest :
  head (snd (chain (step :: rest))) = Some (Invoked (label step)).
Proof. cbn. by destruct (with_next _ _). Qed.

Lemma reverse_order_last mws mw inner req ctx :
  reverse_order (mws ++ [mw]) inner req ctx
  = step_of req ctx (length mws) mw :: reverse_order mws inner req ctx.
Proof.
  unfold reverse_order. rewrite imap_app, reverse_app. cbn.
  by rewrite Nat.add_0_r.
Qed.

Lemma AtMostOnce_reverse_order mws inner req ctx :
  Forall (fun mw : BlogMiddleware => AtMostOnce (mw req ctx)) mws ->
  AtMostOnce (inner req ctx) ->
  Forall (fun step => AtMostOnce (run step)) (reverse_order mws inner req ctx).
Proof.
  intros Hmws Hinner. unfold reverse_order.
  apply Forall_app. split; [|by repeat constructor].
  apply Forall_reverse.
  change (imap (step_of req ctx) mws)
    with (imap (fun i => step_of req ctx (id i)) mws).
  generalize (@id nat). induction Hmws as [|mw mws Hmw _ IH]; intros f.
  - constructor.
  - cbn. constructor; [done|]. apply (IH (f ∘ S)).
Qed.

(** C1, as the code has it.  [composeMiddlewares] runs the middlewares
    in the reverse of the configured order: for middlewares that call
    [next()] at most once, the completion and the trace are those of the
    nested composition in which the last-configured middleware is
    invoked first and wraps all others, and each middleware's [next()]
    resolves to what the earlier-configured middlewares followed by the
    inner handler produce. *)
Theorem composeMiddlewares_reverse_order state req conn inner mws :
  middlewares state = Some mws ->
  Forall (fun mw : BlogMiddleware =>
            AtMostOnce (mw req (mkBlogContext (settings state) conn))) mws ->
  AtMostOnce (inner req (mkBlogContext (settings state) conn)) ->
  exists r,
    composeMiddlewares state req conn inner = Some r
    /\ observe r
       = chain (reverse_order mws inner req
                  (mkBlogContext (settings state) conn))
    /\ (mws <> [] ->
        head (trace r) = Some (Invoked (Middleware (length mws - 1)))).
Proof.
  intros Hm Hmws Hinner.
  rewrite composeMiddlewares_queue, Hm. cbn [default].
  destruct (shift_and_call_chain _
              (AtMostOnce_reverse_order _ _ _ _ Hmws Hinner))
    as (r & Hr & Ho).
  exists r. split; [done|]. split; [done|].
  intros Hne. destruct (decide (mws = [])) as [->|_]; [done|].
  assert (Ht : trace r = snd (observe r)) by reflexivity.
  rewrite Ht, Ho. clear -Hne.
  destruct mws as [|mw mws] using rev_ind; [done|].
  rewrite reverse_order_last, chain_head. cbn.
  rewrite length_app. cbn. do 3 f_equal. lia.
Qed.

Lemma composeMiddlewares_reverse_order_witness :
  exists r,
    composeMiddlewares
      (Sample.with_middlewares [Sample.around "A"; Sample.around "B"])
      (Sample.request "/cat.png" "") Sample.CONN_INFO
      (handler (Sample.deps false)) = Some r
    /\ observe r
       = chain (reverse_order [Sample.around "A"; Sample.around "B"]
                  (handler (Sample.deps false))
                  (Sample.request "/cat.png" "") Sample.ctx)
    /\ ([Sample.around "A"; Sample.around "B"] <> [] ->
        head (trace r) = Some (Invoked (Middleware 1))).
Proof.
  apply (composeMiddlewares_reverse_order
           (Sample.with_middlewares [Sample.around "A"; Sample.around "B"])
           (Sample.request "/cat.png" "") Sample.CONN_INFO
           (handler (Sample.deps false))
           [Sample.around "A"; Sample.around "B"]).
  - reflexivity.
  - repeat constructor.
  - vm_compute. constructor.
Defined.

(** C1 as stated fails: with the middlewares [A; B] configured in that
    order, the second-configured [B] is invoked first and wraps [A]; the
    run is not that of the chain in configured order. *)
Lemma composeMiddlewares_configured_order_counterexample :
  exists r,
    composeMiddlewares
      (Sample.with_middlewares [Sample.around "A"; Sample.around "B"])
      (Sample.request "/cat.png" "") Sample.CONN_INFO
      (handler (Sample.deps false)) = Some r
    /\ trace r
       = [ Invoked (Middleware 1); Did (Custom "B:before");
           Invoked (Middleware 0); Did (Custom "A:before");
           Invoked Inner;
           Did (Custom "A:after"); Did (Custom "B:after") ]
    /\ observe r
       <> chain (configured_order [Sample.around "A"; Sample.around "B"]
                   (handler (Sample.deps false))
                   (Sample.request "/cat.png" "") Sample.ctx).
Proof.
  eexists. split; [vm_compute; reflexivity|].
  split; [reflexivity|]. vm_compute. discriminate.
Qed.

End Order.

(** ** The inner handler *)

Section InnerHandler.

Variable deps : Deps.

Lemma NoNext_lift c : NoNext (lift c).
Proof. destruct c; constructor. Qed.

Lemma handler_NoNext req ctx : NoNext (handler deps req ctx).
Proof.
  unfold handler.
  destruct (IS_DEV deps && String.eqb _ "/hmr.js"); [constructor|].
  destruct (IS_DEV deps && String.eqb _ "/hmr").
  - destruct (upgradeWebSocket deps req); repeat constructor.
  - destruct (String.eqb _ "/"); apply NoNext_lift.
Qed.

(** The two paths the hot-reload mode answers itself. *)
Lemma handler_not_dev (req : Request) :
  IS_DEV deps = false
  \/ (pathname (req_url req) <> "/hmr.js" /\ pathname (req_url req) <> "/hmr") ->
  IS_DEV deps && String.eqb (pathname (req_url req)) "/hmr.js" = false
  /\ IS_DEV deps && String.eqb (pathname (req_url req)) "/hmr" = false.
Proof.
  intros [->|[H1 H2]]; [done|].
  apply String.eqb_neq in H1, H2. rewrite H1, H2.
  by destruct (IS_DEV deps).
Qed.

End InnerHandler.

(** C6, as the code has it.  For a request reaching the inner handler:
    on the root path it returns what the [html] renderer makes of the
    index page, given the settings, the canonical link (the configured
    canonical URL, or the request origin when none is configured), the
    open-graph image and the theme color; on every other path it returns
    what [serveDir] makes of the request, except that in hot-reload mode
    ([IS_DEV]) the paths [/hmr.js] and [/hmr] are answered by the handler
    itself: [/hmr.js] with the client script as JavaScript, [/hmr] with
    the response of the WebSocket upgrade, whose socket it registers (or
    with the error the upgrade raises); and it never calls [next()]. *)
Theorem handler_root_or_static deps req ctx :
  (pathname (req_url req) = "/" ->
   exists options,
     handler deps req ctx = lift (html deps options)
     /\ html_body options = Index (state ctx)
     /\ (canonicalUrl (state ctx) = None ->
         head (html_links options)
         = Some (mkLinkTag (origin (req_url req) +:+ "/") "canonical"
                   None None))
     /\ (forall c, canonicalUrl (state ctx) = Some c -> c <> "" ->
         head (html_links options)
         = Some (mkLinkTag (c +:+ "/") "canonical" None None))
     /\ html_meta options !! 0
        = Some ("theme-color",
                match theme (state ctx) with
                | Some dark => MetaString "#000"
                | _ => MetaNull
                end)
     /\ html_meta options !! 4
        = Some ("og:image",
                match ogImage (state ctx) with
                | Some (OgString s) => MetaString s
                | Some (OgObject url _) => MetaString url
                | None => meta_of (cover (state ctx))
                end))
  /\ (pathname (req_url req) <> "/" ->
      IS_DEV deps = false
      \/ (pathname (req_url req) <> "/hmr.js"
          /\ pathname (req_url req) <> "/hmr") ->
      handler deps req ctx = lift (serveDir deps req))
  /\ (IS_DEV deps = true ->
      pathname (req_url req) = "/hmr.js" ->
      handler deps req ctx
      = Return (mkResponse 200 [("content-type", "application/javascript")]
                  (Some (HMR_CLIENT deps))))
  /\ (IS_DEV deps = true ->
      pathname (req_url req) = "/hmr" ->
      handler deps req ctx
      = match upgradeWebSocket deps req with
        | Normal response => Perform (HmrSocketAdd req) (Return response)
        | Abrupt e => Throw e
        end)
  /\ NoNext (handler deps req ctx).
Proof.
  split; [|split; [|split; [|split]]];
    [| |intros Hdev Hpath; unfold handler; by rewrite Hdev, Hpath
     |intros Hdev Hpath; unfold handler; by rewrite Hdev, Hpath|].
  - intros Hroot. unfold handler. rewrite Hroot.
    rewrite !andb_false_r. cbn [String.eqb Ascii.eqb]. cbn match.
    eexists. split; [reflexivity|]. cbn.
    split; [done|]. split; [by intros ->|].
    split; [intros c -> Hc; by destruct c|].
    split; [done|].
    by destruct (ogImage (state ctx)) as [[]|].
  - intros Hroot Hdev. unfold handler.
    destruct (handler_not_dev deps req Hdev) as [-> ->].
    apply String.eqb_neq in Hroot. by rewrite Hroot.
  - apply handler_NoNext.
Qed.

Lemma handler_root_or_static_witness :
  (exists options,
     handler (Sample.deps false) (Sample.request "/" "") Sample.ctx
     = lift (html (Sample.deps false) options)
     /\ head (html_links options)
        = Some (mkLinkTag "https://blog.deno.dev/" "canonical" None None))
  /\ handler (Sample.deps true) (Sample.request "/cat.png" "") Sample.ctx
     = lift (serveDir (Sample.deps true) (Sample.request "/cat.png" "")).
Proof.
  split.
  - destruct (proj1 (handler_root_or_static (Sample.deps false)
                       (Sample.request "/" "") Sample.ctx) eq_refl)
      as (options & H & _ & Hcanon & _).
    exists options. split; [exact H|]. apply Hcanon. reflexivity.
  - apply (proj1 (proj2 (handler_root_or_static (Sample.deps true)
                           (Sample.request "/cat.png" "") Sample.ctx))).
    + discriminate.
    + right. split; discriminate.
Defined.

(** C6 as stated fails in hot-reload mode: the path [/hmr.js] is not
    passed to [serveDir]; the handler answers it with the client script. *)
Lemma handler_static_counterexample :
  handler (Sample.deps true) (Sample.request "/hmr.js" "") Sample.ctx
  = Return (mkResponse 200 [("content-type", "application/javascript")]
              (Some (HMR_CLIENT (Sample.deps true))))
  /\ handler (Sample.deps true) (Sample.request "/hmr.js" "") Sample.ctx
     <> lift (serveDir (Sample.deps true) (Sample.request "/hmr.js" "")).
Proof. split; [reflexivity|]. vm_compute. discriminate. Qed.

(** ** The trailing-slash normalizer *)

Section Normalizer.

Lemma slice_0_neg1_endsWith_slash s :
  endsWith_slash s = true -> slice_0_neg1 s +:+ "/" = s.
Proof.
  unfold endsWith_slash. induction s as [|a s IH]; [done|].
  destruct s as [|b s].
  - cbn. destruct (Ascii.eqb_spec a "/"); [by subst|done].
  - intros H. change (String a (slice_0_neg1 (String b s) +:+ "/")
                      = String a (String b s)).
    f_equal. by apply IH.
Qed.

Lemma set_pathname_href u p :
  Http.href (set_pathname u p) = origin u +:+ p +:+ search u +:+ hash u.
Proof. reflexivity. Qed.

Lemma createBlogHandler_trailing deps state req conn :
  has_trailing_slash req ->
  createBlogHandler deps state req conn
  = Some (mkResult
            (Normal (Response_redirect
                       (Http.href (set_pathname (req_url req)
                                     (slice_0_neg1 (pathname (req_url req)))))
                       307))
            [] []).
Proof.
  intros [Hlen Hslash]. unfold createBlogHandler.
  rewrite Hslash, bool_decide_eq_true_2 by done. reflexivity.
Qed.

Lemma createBlogHandler_no_trailing deps state req conn :
  ~ has_trailing_slash req ->
  createBlogHandler deps state req conn
  = composeMiddlewares state req conn (handler deps).
Proof.
  intros Hno. unfold createBlogHandler.
  destruct (bool_decide_reflect (1 < String.length (pathname (req_url req))))
    as [Hlen|Hlen]; [|done].
  destruct (endsWith_slash (pathname (req_url req))) eqn:Hslash; [|done].
  destruct Hno. by split.
Qed.

End Normalizer.

(** C2.  A request whose path is longer than one character and ends with
    the separator is answered with a 307 redirect to the same URL without
    the trailing separator, and nothing is invoked; every other request
    goes to the middleware chain as it is. *)
Theorem createBlogHandler_normalizer deps state req conn :
  (has_trailing_slash req ->
   exists r res,
     createBlogHandler deps state req conn = Some r
     /\ completion r = Normal res
     /\ status res = 307
     /\ get_header "location" res
        = Some (Http.href (set_pathname (req_url req)
                             (slice_0_neg1 (pathname (req_url req)))))
     /\ slice_0_neg1 (pathname (req_url req)) +:+ "/" = pathname (req_url req)
     /\ trace r = [])
  /\ (~ has_trailing_slash req ->
      createBlogHandler deps state req conn
      = composeMiddlewares state req conn (handler deps)).
Proof.
  split.
  - intros Htrail. rewrite createBlogHandler_trailing by done.
    eexists _, _. split; [reflexivity|]. cbn.
    repeat split. apply slice_0_neg1_endsWith_slash, Htrail.
  - apply createBlogHandler_no_trailing.
Qed.

Lemma createBlogHandler_normalizer_witness :
  (exists r res,
     createBlogHandler (Sample.deps false)
       (Sample.with_middlewares [Sample.failing "never called"])
       (Sample.request "/about/" "?a=1") Sample.CONN_INFO = Some r
     /\ completion r = Normal res
     /\ status res = 307
     /\ get_header "location" res = Some "https://blog.deno.dev/about?a=1"
     /\ trace r = [])
  /\ createBlogHandler (Sample.deps false)
       (Sample.with_middlewares [Sample.redirects_test])
       (Sample.request "/" "") Sample.CONN_INFO
     = composeMiddlewares (Sample.with_middlewares [Sample.redirects_test])
         (Sample.request "/" "") Sample.CONN_INFO (handler (Sample.deps false)).
Proof.
  split.
  - destruct (proj1 (createBlogHandler_normalizer (Sample.deps false)
                       (Sample.with_middlewares [Sample.failing "never called"])
                       (Sample.request "/about/" "?a=1") Sample.CONN_INFO))
      as (r & res & H1 & H2 & H3 & H4 & _ & H6).
    + split; [vm_compute; lia | reflexivity].
    + exists r, res. repeat split; assumption.
  - apply (proj2 (createBlogHandler_normalizer (Sample.deps false)
                    (Sample.with_middlewares [Sample.redirects_test])
                    (Sample.request "/" "") Sample.CONN_INFO)).
    intros [Hlen _]. vm_compute in Hlen. lia.
Defined.

(** C8.  The redirect of the normalizer names the whole URL of the
    request: the same scheme, host, port, query string and fragment, with
    only the trailing separator of the path removed. *)
Theorem createBlogHandler_redirect_target deps state req conn :
  has_trailing_slash req ->
  exists r res target,
    createBlogHandler deps state req conn = Some r
    /\ completion r = Normal res
    /\ get_header "location" res = Some (Http.href target)
    /\ protocol target = protocol (req_url req)
    /\ Http.hostname target = Http.hostname (req_url req)
    /\ Http.port target = Http.port (req_url req)
    /\ search target = search (req_url req)
    /\ hash target = hash (req_url req)
    /\ pathname target +:+ "/" = pathname (req_url req)
    /\ Http.href target
       = origin (req_url req) +:+ pathname target
         +:+ search (req_url req) +:+ hash (req_url req).
Proof.
  intros Htrail. rewrite createBlogHandler_trailing by done.
  eexists _, _, (set_pathname (req_url req) _).
  split; [reflexivity|]. cbn.
  repeat split. apply slice_0_neg1_endsWith_slash, Htrail.
Qed.

Lemma createBlogHandler_redirect_target_witness :
  has_trailing_slash (Sample.request "/about/" "?a=1")
  /\ exists r res,
       createBlogHandler (Sample.deps false) (Sample.with_middlewares [])
         (Sample.request "/about/" "?a=1") Sample.CONN_INFO = Some r
       /\ completion r = Normal res
       /\ get_header "location" res = Some "https://blog.deno.dev/about?a=1".
Proof.
  assert (H : has_trailing_slash (Sample.request "/about/" "?a=1"))
    by (split; [vm_compute; lia | reflexivity]).
  split; [exact H|].
  destruct (createBlogHandler_redirect_target (Sample.deps false)
              (Sample.with_middlewares [])
              (Sample.request "/about/" "?a=1") Sample.CONN_INFO H)
    as (r & res & target & H1 & H2 & H3 & _).
  exists r, res. split; [exact H1|]. split; [exact H2|].
  vm_compute in H1. injection H1 as <-. injection H2 as <-. reflexivity.
Defined.

(** ** The analytics middleware *)

(** C9.  [ga] refuses the empty key when it is called, before any request;
    every other key yields a middleware. *)
Theorem ga_key :
  ga "" = Abrupt (new_Error "GA key cannot be empty.")
  /\ forall gaKey, gaKey <> "" -> exists mw, ga gaKey = Normal mw.
Proof.
  split; [reflexivity|].
  intros gaKey Hne. unfold ga. destruct gaKey as [|a s]; [done|].
  cbn. eauto.
Qed.

Lemma ga_key_witness :
  "GA-ANALYTICS-KEY" <> "" /\ exists mw, ga "GA-ANALYTICS-KEY" = Normal mw.
Proof.
  split; [discriminate|].
  apply (proj2 ga_key "GA-ANALYTICS-KEY"). discriminate.
Defined.

(** ** No middlewares *)

(** C4.  With no middleware configured ([middlewares] absent or empty),
    [composeMiddlewares] does what calling the inner handler with the
    request and the context does: the only handler invoked is the inner
    one, run with nothing queued behind it. *)
Theorem composeMiddlewares_empty state req conn inner :
  middlewares state = None \/ middlewares state = Some [] ->
  exists r,
    run_queue (inner req (mkBlogContext (settings state) conn)) [] = Some r
    /\ composeMiddlewares state req conn inner
       = Some (logged [Invoked Inner] r).
Proof.
  intros Hm.
  destruct (run_queue_total (inner req (mkBlogContext (settings state) conn)) [])
    as (r & Hr & _).
  exists r. split; [done|].
  unfold composeMiddlewares.
  destruct Hm as [-> | ->]; cbn -[run_queue]; by rewrite Hr.
Qed.

Lemma composeMiddlewares_empty_witness :
  composeMiddlewares (mkBlogState Sample.BLOG_SETTINGS None)
    (Sample.request "/" "") Sample.CONN_INFO (handler (Sample.deps false))
  = Some (mkResult (Normal (Sample.page "Test blog")) [] [Invoked Inner]).
Proof.
  destruct (composeMiddlewares_empty (mkBlogState Sample.BLOG_SETTINGS None)
              (Sample.request "/" "") Sample.CONN_INFO
              (handler (Sample.deps false)) (or_introl eq_refl))
    as (r & Hr & ->).
  vm_compute in Hr. injection Hr as <-. reflexivity.
Defined.

(** ** Delegation along the queue *)

Section Delegation.

Implicit Types (p : Prog) (handlers front back : list Step) (r : Result).

Lemma logged_nil r : logged [] r = r.
Proof. by destruct r. Qed.

Lemma invocations_app evs1 evs2 :
  invocations (evs1 ++ evs2) = invocations evs1 ++ invocations evs2.
Proof. apply omap_app. Qed.

Lemma invocations_Invoked l evs :
  invocations (Invoked l :: evs) = l :: invocations evs.
Proof. reflexivity. Qed.

Lemma invocations_Did eff evs :
  invocations (Did eff :: evs) = invocations evs.
Proof. reflexivity. Qed.

(** A program that completes of its own leaves the queue alone and
    invokes nothing. *)
Lemma run_queue_Completes p c handlers :
  Completes p c ->
  exists r, run_queue p handlers = Some r
            /\ completion r = c /\ pending r = handlers
            /\ invocations (trace r) = [].
Proof.
  induction 1 as [res|e|eff k c Hk (r & Hr & Hc & Hp & Ht)].
  - rewrite run_queue_Return. eauto 6.
  - rewrite run_queue_Throw. eauto 6.
  - rewrite run_queue_Perform, Hr. cbn.
    eexists; split; [reflexivity|]. cbn. by rewrite invocations_Did.
Qed.

(** [await ctx.next()] factors every call of [next()]: a program resumes
    with the completion, the queue and the trace that the bare call
    leaves. *)
Lemma run_queue_await_next handlers f g r0 :
  run_queue await_next handlers = Some r0 ->
  run_queue (AwaitNext f g) handlers
  = logged (trace r0) <$>
    match completion r0 with
    | Normal res => run_queue (f res) (pending r0)
    | Abrupt e => run_queue (g e) (pending r0)
    end.
Proof.
  unfold await_next. destruct handlers as [|handler rest].
  - rewrite !run_queue_AwaitNext_nil, run_queue_Throw.
    intros [= <-]. cbn.
    destruct (run_queue (g not_a_function) []) as [r|]; [|done].
    cbn. by rewrite logged_nil.
  - rewrite !run_queue_AwaitNext_cons.
    destruct (run_queue (run handler) rest) as [r1|]; [|done]. cbn.
    destruct (completion r1) as [res|e].
    + rewrite run_queue_Return. intros [= <-]. cbn.
      by rewrite app_nil_r.
    + rewrite run_queue_Throw. intros [= <-]. cbn.
      by rewrite app_nil_r.
Qed.

(** Along a queue whose front steps all pass [c] on, a step that
    completes with [c] of its own decides the run: every step up to it is
    invoked once, in queue order, and nothing behind it is touched. *)
Lemma run_queue_PassesOn c front : forall p step back,
  PassesOn c p ->
  Forall (fun s => PassesOn c (run s)) front ->
  Completes (run step) c ->
  exists r, run_queue p (front ++ step :: back) = Some r
            /\ completion r = c /\ pending r = back
            /\ invocations (trace r) = label <$> (front ++ [step]).
Proof.
  induction front as [|next front IH]; intros p step back Hp Hfront Hstep.
  - induction Hp as [f g Hk|eff k Hk (r & Hr & Hc & Hq & Ht)].
    + cbn [app]. rewrite run_queue_AwaitNext_cons.
      destruct (run_queue_Completes _ _ back Hstep)
        as (r1 & -> & Hc1 & Hp1 & Ht1).
      cbn. rewrite Hc1, Hp1.
      destruct (run_queue_Completes _ _ back Hk)
        as (r2 & Hr2 & Hc2 & Hp2 & Ht2).
      destruct c; rewrite Hr2; cbn;
        (eexists; split; [reflexivity|]; cbn;
         rewrite invocations_Invoked, invocations_app, Ht1, Ht2; done).
    + rewrite run_queue_Perform, Hr. cbn.
      eexists; split; [reflexivity|]. cbn. by rewrite invocations_Did.
  - inversion Hfront as [|? ? Hnext Hfront']; subst.
    induction Hp as [f g Hk|eff k Hk (r & Hr & Hc & Hq & Ht)].
    + cbn [app]. rewrite run_queue_AwaitNext_cons.
      destruct (IH (run next) step back Hnext Hfront' Hstep)
        as (r1 & -> & Hc1 & Hp1 & Ht1).
      cbn. rewrite Hc1, Hp1.
      destruct (run_queue_Completes _ _ back Hk)
        as (r2 & Hr2 & Hc2 & Hp2 & Ht2).
      destruct c; rewrite Hr2; cbn;
        (eexists; split; [reflexivity|]; cbn;
         rewrite invocations_Invoked, invocations_app, Ht1, Ht2, app_nil_r;
         done).
    + rewrite run_queue_Perform, Hr. cbn.
      eexists; split; [reflexivity|]. cbn. by rewrite invocations_Did.
Qed.

Lemma shift_and_call_PassesOn c front step back :
  Forall (fun s => PassesOn c (run s)) front ->
  Completes (run step) c ->
  exists r, shift_and_call (front ++ step :: back) = Some r
            /\ completion r = c /\ pending r = back
            /\ invocations (trace r) = label <$> (front ++ [step]).
Proof.
  intros Hfront Hstep. destruct front as [|first front].
  - cbn [app shift_and_call].
    destruct (run_queue_Completes _ _ back Hstep)
      as (r & -> & Hc & Hp & Ht).
    cbn. eexists; split; [reflexivity|]. cbn.
    by rewrite invocations_Invoked, Ht.
  - inversion Hfront as [|? ? Hfirst Hfront']; subst.
    cbn [app shift_and_call].
    destruct (run_queue_PassesOn c front (run first) step back
                Hfirst Hfront' Hstep) as (r & -> & Hc & Hp & Ht).
    cbn. eexists; split; [reflexivity|]. cbn.
    by rewrite invocations_Invoked, Ht.
Qed.

End Delegation.

(** ** Errors from downstream *)

Section Errors.

Lemma startsWith_refl s : startsWith s s = true.
Proof. induction s as [|a s IH]; [done|]. cbn. by rewrite Ascii.eqb_refl. Qed.

Lemma includes_suffix s t : includes (s +:+ t) t = true.
Proof.
  induction s as [|a s IH].
  - change ("" +:+ t) with t.
    destruct t; cbn [includes]; by rewrite startsWith_refl.
  - change (String a s +:+ t) with (String a (s +:+ t)).
    cbn [includes]. rewrite IH. apply orb_true_r.
Qed.

Lemma internal_server_error_500 e :
  status (internal_server_error e) = 500
  /\ body (internal_server_error e)
     = Some ("Internal server error: " +:+ message e)
  /\ includes ("Internal server error: " +:+ message e) (message e) = true.
Proof. repeat split. apply includes_suffix. Qed.

(** The program of [redirects] when neither lookup is truthy. *)
Lemma redirects_no_match redirectMap req ctx :
  truthy (Js.get redirectMap (pathname (req_url req))) = false ->
  truthy (Js.get redirectMap (slice_1 (pathname (req_url req)))) = false ->
  redirects redirectMap req ctx
  = AwaitNext Return
      (fun e => Perform (ConsoleError e) (Return (internal_server_error e))).
Proof.
  intros H1 H2. unfold redirects. rewrite H1. cbn [negb]. by rewrite H2.
Qed.

End Errors.

(** C5.  When the chain behind [next()] raises an error, [ga] and
    [redirects] each catch it and return a response with status 500 whose
    body contains the message of the error.  [composeMiddlewares] catches
    nothing: when the steps run before the raising one only forward, the
    error is the completion of the whole call. *)
Theorem downstream_errors :
  (forall gaKey mw req ctx handlers r0 e,
     ga gaKey = Normal mw ->
     run_queue await_next handlers = Some r0 ->
     completion r0 = Abrupt e ->
     exists r res,
       run_queue (mw req ctx) handlers = Some r
       /\ completion r = Normal res
       /\ status res = 500
       /\ body res = Some ("Internal server error: " +:+ message e)
       /\ includes ("Internal server error: " +:+ message e) (message e)
          = true)
  /\ (forall redirectMap req ctx handlers r0 e,
        truthy (Js.get redirectMap (pathname (req_url req))) = false ->
        truthy (Js.get redirectMap (slice_1 (pathname (req_url req)))) = false ->
        run_queue await_next handlers = Some r0 ->
        completion r0 = Abrupt e ->
        exists r res,
          run_queue (redirects redirectMap req ctx) handlers = Some r
          /\ completion r = Normal res
          /\ status res = 500
          /\ body res = Some ("Internal server error: " +:+ message e)
          /\ includes ("Internal server error: " +:+ message e) (message e)
             = true)
  /\ (forall state req conn inner front step back e,
        reverse_order (default [] (middlewares state)) inner req
          (mkBlogContext (settings state) conn)
        = front ++ step :: back ->
        Forall (fun s => Forwards (run s)) front ->
        Raises (run step) e ->
        exists r,
          composeMiddlewares state req conn inner = Some r
          /\ completion r = Abrupt e).
Proof.
  split; [|split].
  - intros gaKey mw req ctx handlers r0 e Hga Hr0 He.
    unfold ga in Hga. destruct (String.length gaKey =? 0); [done|].
    injection Hga as <-.
    rewrite (run_queue_await_next _ _ _ _ Hr0), He.
    rewrite run_queue_Perform, run_queue_Return. cbn.
    eexists _, _. split; [reflexivity|]. cbn.
    split; [reflexivity|]. apply internal_server_error_500.
  - intros redirectMap req ctx handlers r0 e H1 H2 Hr0 He.
    rewrite redirects_no_match by done.
    rewrite (run_queue_await_next _ _ _ _ Hr0), He.
    rewrite run_queue_Perform, run_queue_Return. cbn.
    eexists _, _. split; [reflexivity|]. cbn.
    split; [reflexivity|]. apply internal_server_error_500.
  - intros state req conn inner front step back e Hq Hfront Hstep.
    rewrite composeMiddlewares_queue, Hq.
    destruct (shift_and_call_PassesOn (Abrupt e) front step back)
      as (r & Hr & Hc & _); [|done|by eauto].
    eapply Forall_impl; [exact Hfront|]. intros s Hs. apply Hs.
Qed.

Lemma downstream_errors_witness :
  (exists r,
     run_queue (Sample.ga_test (Sample.request "/" "") Sample.ctx)
       [mkStep Inner (Throw (new_Error "boom"))] = Some r
     /\ completion r
        = Normal (mkResponse 500
                    [("content-type", "text/plain;charset=UTF-8")]
                    (Some "Internal server error: boom")))
  /\ (exists r,
        run_queue (Sample.redirects_test (Sample.request "/" "") Sample.ctx)
          [mkStep Inner (Throw (new_Error "boom"))] = Some r
        /\ completion r
           = Normal (mkResponse 500
                       [("content-type", "text/plain;charset=UTF-8")]
                       (Some "Internal server error: boom")))
  /\ (exists r,
        composeMiddlewares (Sample.with_middlewares [Sample.forward])
          (Sample.request "/" "") Sample.CONN_INFO
          (fun _ _ => Throw (new_Error "boom")) = Some r
        /\ completion r = Abrupt (new_Error "boom")).
Proof.
  destruct downstream_errors as (Hga & Hredirects & Hnone).
  split; [|split].
  - destruct (Hga "GA-ANALYTICS-KEY" Sample.ga_test
                (Sample.request "/" "") Sample.ctx
                [mkStep Inner (Throw (new_Error "boom"))]
                (mkResult (Abrupt (new_Error "boom")) [] [Invoked Inner])
                (new_Error "boom") eq_refl eq_refl eq_refl)
      as (r & res & Hr & Hc & _).
    exists r. split; [exact Hr|].
    vm_compute in Hr. injection Hr as <-. reflexivity.
  - destruct (Hredirects Sample.redirect_map
                (Sample.request "/" "") Sample.ctx
                [mkStep Inner (Throw (new_Error "boom"))]
                (mkResult (Abrupt (new_Error "boom")) [] [Invoked Inner])
                (new_Error "boom") eq_refl eq_refl eq_refl eq_refl)
      as (r & res & Hr & Hc & _).
    exists r. split; [exact Hr|].
    vm_compute in Hr. injection Hr as <-. reflexivity.
  - apply (Hnone (Sample.with_middlewares [Sample.forward])
             (Sample.request "/" "") Sample.CONN_INFO
             (fun _ _ => Throw (new_Error "boom"))
             [mkStep (Middleware 0) (AwaitNext Return Throw)]
             (mkStep Inner (Throw (new_Error "boom"))) []).
    + reflexivity.
    + constructor; [|constructor].
      intros c. constructor. destruct c; constructor.
    + constructor.
Defined.

(** ** The redirect map *)

Section Redirects.

Variables (redirectMap : gmap string string) (req : Request)
          (ctx : BlogContext).

Lemma get_own key target :
  redirectMap !! key = Some target -> Js.get redirectMap key = PString target.
Proof. intros H. unfold Js.get. by rewrite H. Qed.

Lemma truthy_PString target : target <> "" -> truthy (PString target) = true.
Proof. by destruct target. Qed.

Lemma redirect_to_Normal location v :
  header_value location = Normal v ->
  redirect_to location = Return (mkResponse 307 [("location", v)] None).
Proof. intros H. unfold redirect_to. by rewrite H. Qed.


Lemma redirects_PString target :
  target <> "" ->
  (if negb (truthy (Js.get redirectMap (pathname (req_url req))))
   then Js.get redirectMap (slice_1 (pathname (req_url req)))
   else Js.get redirectMap (pathname (req_url req))) = PString target ->
  redirects redirectMap req ctx
  = redirect_to (if startsWith target "/" || startsWith target "http"
                 then target else "/" +:+ target).
Proof.
  intros Hne Hget. unfold redirects, redirect_to. rewrite Hget.
  rewrite truthy_PString by done.
  destruct (startsWith target "/"), (startsWith target "http");
    cbn [negb andb orb new_Headers];
    by destruct (header_value _).
Qed.

(** The full pathname is a key with a target that is not empty. *)
Lemma redirects_full target :
  redirectMap !! pathname (req_url req) = Some target ->
  target <> "" ->
  redirects redirectMap req ctx
  = redirect_to (if startsWith target "/" || startsWith target "http"
                 then target else "/" +:+ target).
Proof.
  intros Hkey Hne. apply redirects_PString; [done|].
  by rewrite (get_own _ _ Hkey), truthy_PString.
Qed.

(** The full pathname yields nothing truthy and the trimmed one is a key
    with a target that is not empty. *)
Lemma redirects_trimmed target :
  truthy (Js.get redirectMap (pathname (req_url req))) = false ->
  redirectMap !! slice_1 (pathname (req_url req)) = Some target ->
  target <> "" ->
  redirects redirectMap req ctx
  = redirect_to (if startsWith target "/" || startsWith target "http"
                 then target else "/" +:+ target).
Proof.
  intros Hfull Hkey Hne. apply redirects_PString; [done|].
  by rewrite Hfull, (get_own _ _ Hkey).
Qed.

End Redirects.

(** ** Header values *)

Section HeaderValues.

Lemma header_value_Normal s v :
  header_value s = Normal v -> v = normalize_header_value s.
Proof.
  unfold header_value. destruct (is_ByteString s); [|done].
  destruct (has_forbidden_byte _); [done|]. by intros [= <-].
Qed.


Lemma strip_leading_no_whitespace s :
  no_whitespace s = true -> strip_leading s = s.
Proof.
  destruct s as [|c s]; [done|]. cbn.
  by destruct (is_http_whitespace c).
Qed.

Lemma strip_trailing_no_whitespace s :
  no_whitespace s = true -> strip_trailing s = s.
Proof.
  induction s as [|c s IH]; [done|]. cbn.
  destruct (is_http_whitespace c); [done|]. cbn. intros Hs.
  rewrite (IH Hs). by destruct s.
Qed.

(** A value without whitespace and without a refused character is stored
    as it is. *)
Lemma header_value_verbatim s :
  no_whitespace s = true ->
  is_ByteString s = true ->
  has_forbidden_byte s = false ->
  header_value s = Normal s.
Proof.
  intros Hws Hbytes Hforbidden. unfold header_value, normalize_header_value.
  by rewrite Hbytes, strip_leading_no_whitespace,
    strip_trailing_no_whitespace, Hforbidden.
Qed.

End HeaderValues.

(** C3, as the code has it.  When the pathname of the request is mapped to
    a target that is not empty, or when that lookup yields nothing truthy
    and the pathname without its first character is mapped to a target
    that is not empty, and the target, prefixed with [/] unless it starts
    with [/] or with the letters [http], is a value [Headers] accepts,
    [redirects] answers 307 with that value as [location], stored as
    [Headers] stores it: without whitespace at its ends, and as it is when
    it holds no whitespace.  When neither lookup yields a truthy value it
    delegates through [next()]. *)
Theorem redirects_response redirectMap req ctx :
  (forall target v,
     redirectMap !! pathname (req_url req) = Some target ->
     target <> "" ->
     header_value (if startsWith target "/" || startsWith target "http"
                   then target else "/" +:+ target) = Normal v ->
     redirects redirectMap req ctx
     = Return (mkResponse 307 [("location", v)] None)
     /\ v = normalize_header_value
              (if startsWith target "/" || startsWith target "http"
               then target else "/" +:+ target))
  /\ (forall target v,
        truthy (Js.get redirectMap (pathname (req_url req))) = false ->
        redirectMap !! slice_1 (pathname (req_url req)) = Some target ->
        target <> "" ->
        header_value (if startsWith target "/" || startsWith target "http"
                      then target else "/" +:+ target) = Normal v ->
        redirects redirectMap req ctx
        = Return (mkResponse 307 [("location", v)] None)
        /\ v = normalize_header_value
                 (if startsWith target "/" || startsWith target "http"
                  then target else "/" +:+ target))
  /\ (forall location,
        no_whitespace location = true ->
        is_ByteString location = true ->
        has_forbidden_byte location = false ->
        header_value location = Normal location)
  /\ (truthy (Js.get redirectMap (pathname (req_url req))) = false ->
      truthy (Js.get redirectMap (slice_1 (pathname (req_url req)))) = false ->
      Delegates (redirects redirectMap req ctx)
      /\ forall handlers r0 res,
           run_queue await_next handlers = Some r0 ->
           completion r0 = Normal res ->
           exists r, run_queue (redirects redirectMap req ctx) handlers = Some r
                     /\ completion r = Normal res).
Proof.
  split; [|split; [|split]].
  - intros target v Hkey Hne Hv.
    rewrite (redirects_full _ _ _ _ Hkey Hne), (redirect_to_Normal _ _ Hv).
    split; [done|]. by apply header_value_Normal.
  - intros target v Hfull Hkey Hne Hv.
    rewrite (redirects_trimmed _ _ _ _ Hfull Hkey Hne),
      (redirect_to_Normal _ _ Hv).
    split; [done|]. by apply header_value_Normal.
  - apply header_value_verbatim.
  - intros H1 H2. rewrite redirects_no_match by done. split.
    + intros res. repeat constructor.
    + intros handlers r0 res Hr0 Hc.
      rewrite (run_queue_await_next _ _ _ _ Hr0), Hc, run_queue_Return.
      cbn. eauto.
Qed.

Lemma redirects_response_witness :
  redirects Sample.redirect_map (Sample.request "/to_second" "") Sample.ctx
  = Return (mkResponse 307 [("location", "/second")] None)
  /\ redirects Sample.redirect_map (Sample.request "/external_redirect" "")
       Sample.ctx
     = Return (mkResponse 307 [("location", "https://example.com")] None)
  /\ redirects {[ "a" := "b " ]} (Sample.request "/a" "") Sample.ctx
     = Return (mkResponse 307 [("location", "/b")] None)
  /\ header_value "/second" = Normal "/second"
  /\ Delegates
       (redirects Sample.redirect_map (Sample.request "/cat.png" "")
          Sample.ctx).
Proof.
  split; [|split; [|split; [|split]]].
  - apply (proj1 (redirects_response Sample.redirect_map
                    (Sample.request "/to_second" "") Sample.ctx)
             "second" "/second").
    + reflexivity.
    + discriminate.
    + reflexivity.
  - apply (proj1 (redirects_response Sample.redirect_map
                    (Sample.request "/external_redirect" "") Sample.ctx)
             "https://example.com" "https://example.com").
    + reflexivity.
    + discriminate.
    + reflexivity.
  - apply (proj1 (proj2 (redirects_response {[ "a" := "b " ]}
                           (Sample.request "/a" "") Sample.ctx))
             "b " "/b").
    + reflexivity.
    + reflexivity.
    + discriminate.
    + reflexivity.
  - apply (proj1 (proj2 (proj2 (redirects_response Sample.redirect_map
                                  (Sample.request "/" "") Sample.ctx)))).
    + reflexivity.
    + reflexivity.
    + reflexivity.
  - apply (proj2 (proj2 (proj2 (redirects_response Sample.redirect_map
                                  (Sample.request "/cat.png" "")
                                  Sample.ctx)))).
    + reflexivity.
    + reflexivity.
Defined.

(** C3 as stated fails twice.  A target that is an absolute URL with a
    scheme other than http(s) is prefixed with [/]; and a request whose
    path is a key mapped to the empty string gets no 307: the middleware
    delegates. *)
Lemma redirects_response_counterexample :
  redirects {[ "/files" := "ftp://example.com" ]}
    (Sample.request "/files" "") Sample.ctx
  = Return (mkResponse 307 [("location", "/ftp://example.com")] None)
  /\ redirects {[ "/a" := "" ]} (Sample.request "/a" "") Sample.ctx
     = AwaitNext Return
         (fun e => Perform (ConsoleError e) (Return (internal_server_error e))).
Proof. split; reflexivity. Qed.

(** C10, as the code has it.  A target of the full pathname that is not
    empty is used whatever the trimmed pathname is mapped to: the trimmed
    key is looked up only when the full pathname yields nothing truthy.
    A full-pathname key mapped to the empty string counts as no match:
    the trimmed key is tried, its target is used when that is not empty,
    and the request is delegated through [next()] when that lookup yields
    nothing truthy either.  A target that is used gives the 307 whose
    [location] is the target, prefixed with [/] unless it starts with [/]
    or [http], as [Headers] stores it, when [Headers] accepts it. *)
Theorem redirects_lookup_order redirectMap req ctx :
  (forall target,
     redirectMap !! pathname (req_url req) = Some target ->
     target <> "" ->
     (forall v,
        header_value (if startsWith target "/" || startsWith target "http"
                      then target else "/" +:+ target) = Normal v ->
        redirects redirectMap req ctx
        = Return (mkResponse 307 [("location", v)] None)
        /\ v = normalize_header_value
                 (if startsWith target "/" || startsWith target "http"
                  then target else "/" +:+ target))
     /\ forall other,
          slice_1 (pathname (req_url req)) <> pathname (req_url req) ->
          redirects (<[slice_1 (pathname (req_url req)) := other]> redirectMap)
            req ctx
          = redirects redirectMap req ctx)
  /\ (redirectMap !! pathname (req_url req) = Some "" ->
      (forall target v,
         redirectMap !! slice_1 (pathname (req_url req)) = Some target ->
         target <> "" ->
         header_value (if startsWith target "/" || startsWith target "http"
                       then target else "/" +:+ target) = Normal v ->
         redirects redirectMap req ctx
         = Return (mkResponse 307 [("location", v)] None)
         /\ v = normalize_header_value
                  (if startsWith target "/" || startsWith target "http"
                   then target else "/" +:+ target))
      /\ (truthy (Js.get redirectMap (slice_1 (pathname (req_url req))))
          = false ->
          redirects redirectMap req ctx
          = AwaitNext Return
              (fun e =>
                 Perform (ConsoleError e) (Return (internal_server_error e))))).
Proof.
  split.
  - intros target Hkey Hne. split.
    + intros v Hv.
      rewrite (redirects_full _ _ _ _ Hkey Hne), (redirect_to_Normal _ _ Hv).
      split; [done|]. by apply header_value_Normal.
    + intros other Hother.
      rewrite (redirects_full _ _ _ target), (redirects_full _ _ _ _ Hkey Hne);
        [done| |done].
      by rewrite lookup_insert_ne.
  - intros Hempty.
    assert (Hfull : truthy (Js.get redirectMap (pathname (req_url req)))
                    = false) by by rewrite (get_own _ _ _ Hempty).
    split.
    + intros target v Hkey Hne Hv.
      rewrite (redirects_trimmed _ _ _ _ Hfull Hkey Hne),
        (redirect_to_Normal _ _ Hv).
      split; [done|]. by apply header_value_Normal.
    + intros Htrimmed. by apply redirects_no_match.
Qed.

Lemma redirects_lookup_order_witness :
  redirects (<[ "/a" := "full" ]> {[ "a" := "trimmed" ]})
    (Sample.request "/a" "") Sample.ctx
  = Return (mkResponse 307 [("location", "/full")] None)
  /\ redirects {[ "/a" := "" ]} (Sample.request "/a" "") Sample.ctx
     = AwaitNext Return
         (fun e => Perform (ConsoleError e) (Return (internal_server_error e))).
Proof.
  split.
  - destruct (proj1 (redirects_lookup_order
                       (<[ "/a" := "full" ]> {[ "a" := "trimmed" ]})
                       (Sample.request "/a" "") Sample.ctx) "full")
      as [Hused _].
    + reflexivity.
    + discriminate.
    + apply (Hused "/full"). reflexivity.
  - apply (proj2 (redirects_lookup_order {[ "/a" := "" ]}
                    (Sample.request "/a" "") Sample.ctx)).
    + reflexivity.
    + reflexivity.
Defined.

(** C10 as stated fails when the full pathname is mapped to the empty
    string and the trimmed pathname to a target: both are keys, yet the
    target of the trimmed key is used, and the request is not delegated. *)
Lemma redirects_lookup_order_counterexample :
  redirects (<[ "/a" := "" ]> {[ "a" := "x" ]})
    (Sample.request "/a" "") Sample.ctx
  = Return (mkResponse 307 [("location", "/x")] None).
Proof. reflexivity. Qed.

(** ** One response per request *)

Section OneResponse.

Variables (inner : Request -> BlogContext -> Prog) (req : Request)
          (ctx : BlogContext).

Lemma Completes_functional p c c' : Completes p c -> Completes p c' -> c = c'.
Proof.
  induction 1; inversion 1; subst; auto.
Qed.

Lemma Completes_not_PassesOn p c c' : Completes p c -> PassesOn c' p -> False.
Proof.
  induction 1; inversion 1; subst; auto.
Qed.

Lemma Answers_not_Delegates p res : Answers p res -> Delegates p -> False.
Proof. intros Ha Hd. exact (Completes_not_PassesOn _ _ _ Ha (Hd res)). Qed.

(** The first call of the executor is a bare [next()]. *)
Lemma shift_and_call_await_next handlers :
  shift_and_call handlers = run_queue await_next handlers.
Proof.
  unfold await_next. destruct handlers as [|handler rest].
  - by rewrite run_queue_AwaitNext_nil, run_queue_Throw.
  - cbn [shift_and_call]. rewrite run_queue_AwaitNext_cons.
    destruct (run_queue (run handler) rest) as [r|]; [|done]. cbn.
    destruct r as [[res|e] q evs]; cbn;
      [rewrite run_queue_Return | rewrite run_queue_Throw];
      cbn; unfold logged; cbn; by rewrite app_nil_r.
Qed.

(** A program that passes [c] on, run against a queue whose own run
    completes with [c]. *)
Lemma run_queue_passing p c handlers r0 :
  PassesOn c p ->
  shift_and_call handlers = Some r0 ->
  completion r0 = c ->
  exists r, run_queue p handlers = Some r
            /\ completion r = c
            /\ invocations (trace r) = invocations (trace r0).
Proof.
  intros Hp Hr0 Hc. rewrite shift_and_call_await_next in Hr0.
  induction Hp as [f g Hk|eff k Hk (r & Hr & Hcr & Ht)].
  - rewrite (run_queue_await_next _ _ _ _ Hr0), Hc.
    destruct (run_queue_Completes _ _ (pending r0) Hk)
      as (r2 & Hr2 & Hc2 & _ & Ht2).
    destruct c; rewrite Hr2; cbn;
      (eexists; split; [reflexivity|]; cbn;
       by rewrite invocations_app, Ht2, app_nil_r).
  - rewrite run_queue_Perform, Hr. cbn.
    eexists; split; [reflexivity|]. cbn. by rewrite invocations_Did.
Qed.

Lemma invoked_through_inner_S n :
  invoked_through (S n) FromInner
  = Middleware n :: invoked_through n FromInner.
Proof.
  unfold invoked_through. by rewrite seq_S, reverse_snoc.
Qed.

Lemma invoked_through_middleware_S n i :
  i < n ->
  invoked_through (S n) (FromMiddleware i)
  = Middleware n :: invoked_through n (FromMiddleware i).
Proof.
  intros Hi. unfold invoked_through.
  replace (S n - i) with (S (n - i)) by lia.
  rewrite seq_S, reverse_snoc. cbn. do 2 f_equal. lia.
Qed.

Lemma invoked_through_last n :
  invoked_through (S n) (FromMiddleware n) = [Middleware n].
Proof.
  unfold invoked_through. by replace (S n - n) with 1 by lia.
Qed.

(** Middlewares that keep the contract, and an inner handler that
    returns: the queue of [composeMiddlewares] yields one response, from
    one source, and invokes the handlers up to that source once each. *)
Lemma shift_and_call_answered mws res0 :
  Forall (keeps_contract req ctx) mws ->
  Answers (inner req ctx) res0 ->
  exists r res src,
    shift_and_call (reverse_order mws inner req ctx) = Some r
    /\ completion r = Normal res
    /\ answered_by mws inner req ctx src res
    /\ invocations (trace r) = invoked_through (length mws) src.
Proof.
  intros Hmws Hinner.
  induction mws as [|mw mws IH] using rev_ind.
  - change (reverse_order [] inner req ctx)
      with [mkStep Inner (inner req ctx)].
    cbn [shift_and_call run label].
    destruct (run_queue_Completes _ _ [] Hinner) as (r & -> & Hc & _ & Ht).
    cbn. eexists _, res0, FromInner. split; [reflexivity|]. cbn.
    split; [done|]. split.
    + split; [done|]. intros j mw Hj. by rewrite lookup_nil in Hj.
    + by rewrite invocations_Invoked, Ht.
  - apply Forall_app in Hmws as [Hmws Hmw].
    inversion Hmw as [|? ? Hlast _]; subst. clear Hmw.
    rewrite reverse_order_last. cbn [shift_and_call step_of run label].
    rewrite length_app. cbn [length]. rewrite Nat.add_1_r.
    destruct Hlast as [[res Hans]|Hdel].
    + destruct (run_queue_Completes _ _ (reverse_order mws inner req ctx)
                  Hans) as (r & -> & Hc & _ & Ht).
      cbn. eexists _, res, (FromMiddleware (length mws)).
      split; [reflexivity|]. cbn -[invoked_through].
      split; [done|]. split; [split|].
      * exists mw. split; [|done].
        by apply list_lookup_middle.
      * intros j mw' Hj Hlook. apply lookup_lt_Some in Hlook.
        rewrite length_app in Hlook. cbn in Hlook. lia.
      * by rewrite invocations_Invoked, Ht, invoked_through_last.
    + destruct (IH Hmws) as (r0 & res & src & Hr0 & Hc0 & Hsrc & Ht0).
      destruct (run_queue_passing _ _ _ _ (Hdel res) Hr0 Hc0)
        as (r & -> & Hc & Ht).
      cbn. eexists _, res, src. split; [reflexivity|].
      cbn -[invoked_through]. split; [done|].
      assert (Hall : forall j mw',
                 (mws ++ [mw]) !! j = Some mw' ->
                 mws !! j = Some mw' \/ mw' = mw).
      { intros j mw' Hlook.
        apply lookup_app_Some in Hlook as [Hlook|[_ Hlook]]; [by left|].
        right. apply list_lookup_singleton_Some in Hlook as [_ ->]. done. }
      rewrite invocations_Invoked, Ht, Ht0.
      destruct src as [|i|]; [done| |].
      * destruct Hsrc as [(mwi & Hi & Hans) Hafter].
        assert (i < length mws) by by eapply lookup_lt_Some.
        split; [split|].
        -- exists mwi. split; [|done]. by apply lookup_app_l_Some.
        -- intros j mw' Hj Hlook.
           destruct (Hall _ _ Hlook) as [Hlook'| ->]; [|done].
           by eapply Hafter.
        -- by rewrite invoked_through_middleware_S.
      * destruct Hsrc as [Hans Hevery]. split; [split|].
        -- done.
        -- intros j mw' Hlook.
           destruct (Hall _ _ Hlook) as [Hlook'| ->]; [|done].
           by eapply Hevery.
        -- by rewrite invoked_through_inner_S.
Qed.

(** The source of an answer is unique. *)
Lemma answered_by_unique mws src res src' res' :
  answered_by mws inner req ctx src res ->
  answered_by mws inner req ctx src' res' ->
  src' = src /\ res' = res.
Proof.
  destruct src as [|i|], src' as [|i'|]; cbn; try done.
  - intros [(mw & Hi & Hans) Hafter] [(mw' & Hi' & Hans') Hafter'].
    destruct (lt_eq_lt_dec i i') as [[Hlt|Heq]|Hlt].
    + destruct (Answers_not_Delegates _ _ Hans' (Hafter _ _ Hlt Hi')).
    + subst i'. rewrite Hi in Hi'. injection Hi' as <-.
      split; [done|].
      by injection (Completes_functional _ _ _ Hans Hans').
    + destruct (Answers_not_Delegates _ _ Hans (Hafter' _ _ Hlt Hi)).
  - intros [(mw & Hi & Hans) _] [_ Hevery].
    destruct (Answers_not_Delegates _ _ Hans (Hevery _ _ Hi)).
  - intros [_ Hevery] [(mw & Hi & Hans) _].
    destruct (Answers_not_Delegates _ _ Hans (Hevery _ _ Hi)).
  - intros [Hans _] [Hans' _]. split; [done|].
    by injection (Completes_functional _ _ _ Hans Hans').
Qed.

End OneResponse.

(** C7, as the code has it.  A request with a trailing separator is
    answered by the normalizer and nothing is invoked.  For any other
    request, when every configured middleware keeps the contract (it
    answers without calling [next()], or it calls [next()] once and
    returns the response that resolves to) and the inner handler returns,
    [createBlogHandler] yields exactly one response, from exactly one
    source: the middleware that short-circuits, all middlewares
    configured after it delegating, or the inner handler, all middlewares
    delegating; and the handlers up to that source are invoked once each,
    last-configured first. *)
Theorem createBlogHandler_one_response deps state req conn :
  has_trailing_slash req
  \/ (Forall (keeps_contract req (mkBlogContext (settings state) conn))
        (default [] (middlewares state))
      /\ exists res0,
           Answers (handler deps req (mkBlogContext (settings state) conn))
             res0) ->
  exists r res src,
    createBlogHandler deps state req conn = Some r
    /\ completion r = Normal res
    /\ ProducedBy deps state req conn src res
    /\ invocations (trace r)
       = invoked_through (length (default [] (middlewares state))) src
    /\ forall src' res',
         ProducedBy deps state req conn src' res' ->
         src' = src /\ res' = res.
Proof.
  intros H.
  destruct (decide (1 < String.length (pathname (req_url req))
                    /\ endsWith_slash (pathname (req_url req)) = true))
    as [Htrail|Hno].
  - rewrite createBlogHandler_trailing by done.
    eexists _, _, FromNormalizer. split; [reflexivity|]. cbn.
    split; [done|]. split; [done|]. split; [done|].
    intros [|i|] res'; cbn; intros [H1 H2]; try done.
  - destruct H as [Htrail|[Hmws [res0 Hinner]]]; [done|].
    rewrite createBlogHandler_no_trailing, composeMiddlewares_queue by done.
    destruct (shift_and_call_answered _ _ _ _ _ Hmws Hinner)
      as (r & res & src & Hr & Hc & Hsrc & Ht).
    exists r, res, src. split; [done|]. split; [done|].
    assert (Hprod : ProducedBy deps state req conn src res)
      by (destruct src; [done| |]; by split).
    split; [done|]. split; [done|].
    intros [|i|] res'; cbn; intros [H1 H2]; try done;
      by eapply answered_by_unique.
Qed.

Lemma createBlogHandler_one_response_witness :
  exists r res,
    createBlogHandler (Sample.deps false)
      (Sample.with_middlewares [Sample.redirects_test; Sample.ga_test])
      (Sample.request "/cat.png" "") Sample.CONN_INFO = Some r
    /\ completion r = Normal res
    /\ ProducedBy (Sample.deps false)
         (Sample.with_middlewares [Sample.redirects_test; Sample.ga_test])
         (Sample.request "/cat.png" "") Sample.CONN_INFO FromInner res
    /\ invocations (trace r) = [Middleware 1; Middleware 0; Inner].
Proof.
  destruct (createBlogHandler_one_response (Sample.deps false)
              (Sample.with_middlewares [Sample.redirects_test; Sample.ga_test])
              (Sample.request "/cat.png" "") Sample.CONN_INFO)
    as (r & res & src & Hr & Hc & Hsrc & Ht & _).
  - right. split.
    + constructor; [|constructor; [|constructor]].
      * right. intros res. vm_compute. repeat constructor.
      * right. intros res. vm_compute. repeat constructor.
    + eexists. vm_compute. constructor.
  - exists r, res. split; [exact Hr|]. split; [exact Hc|].
    vm_compute in Hr. injection Hr as <-. injection Hc as <-.
    split; [|reflexivity].
    split.
    + intros [_ Hslash]. vm_compute in Hslash. discriminate.
    + split.
      * vm_compute. constructor.
      * intros j mw Hj.
        destruct j as [|[|j]]; cbn in Hj; [| |done];
          injection Hj as <-; intros res; vm_compute; repeat constructor.
Defined.

(** C7 as stated fails.  A middleware that calls [next()] twice leaves the
    request without a response: the second call finds the queue empty and
    the error leaves the handler.  And when the renderer raises, the
    response of a request to [/] comes from [ga], which had called
    [next()]: neither a short-circuit nor the inner handler. *)
Lemma createBlogHandler_one_response_counterexample :
  createBlogHandler (Sample.deps false)
    (Sample.with_middlewares [Sample.twice])
    (Sample.request "/" "") Sample.CONN_INFO
  = Some (mkResult (Abrupt not_a_function) []
            [Invoked (Middleware 0); Invoked Inner])
  /\ exists r,
       createBlogHandler Sample.failing_deps
         (Sample.with_middlewares [Sample.ga_test])
         (Sample.request "/" "") Sample.CONN_INFO = Some r
       /\ completion r
          = Normal (mkResponse 500
                      [("content-type", "text/plain;charset=UTF-8")]
                      (Some "Internal server error: render failed"))
       /\ invocations (trace r) = [Middleware 0; Inner]
       /\ handler Sample.failing_deps (Sample.request "/" "") Sample.ctx
          = Throw (new_Error "render failed").
Proof.
  split; [vm_compute; reflexivity|].
  eexists. split; [vm_compute; reflexivity|].
  split; [reflexivity|]. split; reflexivity.
Qed.


(** * Further properties *)

(** ** The queue is consumed from the front *)

Section Consumption.

Implicit Types (p : Prog) (handlers consumed : list Step) (r : Result).

(** Whatever the programs do, a run takes the handlers it invokes off the
    front of the queue, one after the other. *)
Lemma run_queue_consumes_lt n : forall handlers p,
  length handlers < n ->
  exists r consumed,
    run_queue p handlers = Some r
    /\ handlers = consumed ++ pending r
    /\ invocations (trace r) = label <$> consumed.
Proof.
  induction n as [|n IH]; intros handlers p Hlen; [lia|].
  induction p as [res|e|f IHf g IHg|eff k (r & consumed & Hr & Hq & Ht)].
  - rewrite run_queue_Return. by exists (mkResult (Normal res) handlers []), [].
  - rewrite run_queue_Throw. by exists (mkResult (Abrupt e) handlers []), [].
  - destruct handlers as [|handler rest].
    + rewrite run_queue_AwaitNext_nil. apply IHg.
    + rewrite run_queue_AwaitNext_cons. cbn in Hlen.
      destruct (IH rest (run handler)) as (r1 & c1 & -> & Hq1 & Ht1); [lia|].
      assert (Hshort : length (pending r1) < n).
      { apply (f_equal length) in Hq1. rewrite length_app in Hq1. lia. }
      assert (Hgo : forall q, exists r2 c2,
                 run_queue q (pending r1) = Some r2
                 /\ pending r1 = c2 ++ pending r2
                 /\ invocations (trace r2) = label <$> c2)
        by (intros q; by apply IH).
      cbn. destruct (completion r1) as [res|e];
        [destruct (Hgo (f res)) as (r2 & c2 & -> & Hq2 & Ht2)
        |destruct (Hgo (g e)) as (r2 & c2 & -> & Hq2 & Ht2)];
        (cbn; eexists _, (handler :: c1 ++ c2); split; [reflexivity|]; cbn;
         split;
         [by rewrite Hq1 at 1; rewrite Hq2 at 1; rewrite <- app_assoc
         |by rewrite invocations_Invoked, invocations_app, Ht1, Ht2,
               fmap_app]).
  - rewrite run_queue_Perform, Hr. cbn.
    eexists _, consumed. split; [reflexivity|]. cbn.
    by rewrite invocations_Did.
Qed.

Lemma run_queue_consumes handlers p :
  exists r consumed,
    run_queue p handlers = Some r
    /\ handlers = consumed ++ pending r
    /\ invocations (trace r) = label <$> consumed.
Proof. apply (run_queue_consumes_lt (S (length handlers))). lia. Qed.

(** The first call included: the handlers invoked are a first part of the
    queue that is not empty. *)
Lemma shift_and_call_consumes handler rest :
  exists r consumed,
    shift_and_call (handler :: rest) = Some r
    /\ rest = consumed ++ pending r
    /\ invocations (trace r) = label handler :: (label <$> consumed).
Proof.
  destruct (run_queue_consumes rest (run handler))
    as (r & consumed & Hr & Hq & Ht).
  cbn [shift_and_call]. rewrite Hr. cbn.
  eexists _, consumed. split; [reflexivity|]. cbn.
  by rewrite invocations_Invoked, Ht.
Qed.

Lemma labels_imap (req : Request) (ctx : BlogContext)
    (mws : list BlogMiddleware) n :
  label <$> imap (fun i => step_of req ctx (n + i)) mws
  = Middleware <$> seq n (length mws).
Proof.
  revert n. induction mws as [|mw mws IH]; intros n; [done|].
  cbn. rewrite Nat.add_0_r. f_equal.
  rewrite <- IH. f_equal. apply imap_ext. intros i x _. cbn.
  by rewrite Nat.add_succ_r.
Qed.

(** The labels of the queue [composeMiddlewares] builds. *)
Lemma labels_reverse_order mws inner req ctx :
  label <$> reverse_order mws inner req ctx = queue_order (length mws).
Proof.
  unfold reverse_order, queue_order.
  rewrite fmap_app. f_equal. rewrite !fmap_reverse. f_equal.
  apply (labels_imap req ctx mws 0).
Qed.

Lemma queue_order_NoDup n : NoDup (queue_order n).
Proof.
  unfold queue_order. apply NoDup_app. split; [|split].
  - apply (NoDup_fmap_2_strong Middleware); [by intros i j _ _ [= ->]|].
    rewrite reverse_Permutation. apply NoDup_seq.
  - intros l Hl Hin. apply list_elem_of_fmap in Hl as (i & -> & _).
    apply list_elem_of_singleton in Hin. discriminate.
  - apply NoDup_singleton.
Qed.

Lemma Inner_not_Middleware (l : list nat) : Inner ∉ Middleware <$> l.
Proof. intros H. apply list_elem_of_fmap in H as (i & Hi & _). discriminate. Qed.

(** What [composeMiddlewares] invokes and what it leaves queued make up
    the queue order. *)
Lemma composeMiddlewares_consumes state req conn inner :
  exists r,
    composeMiddlewares state req conn inner = Some r
    /\ invocations (trace r) ++ (label <$> pending r)
       = queue_order (length (default [] (middlewares state)))
    /\ invocations (trace r) <> [].
Proof.
  rewrite composeMiddlewares_queue.
  rewrite <- (labels_reverse_order _ inner req
                (mkBlogContext (settings state) conn)).
  destruct (reverse_order _ _ _ _) as [|handler rest] eqn:Hq.
  - unfold reverse_order in Hq. by destruct (reverse _).
  - destruct (shift_and_call_consumes handler rest)
      as (r & consumed & Hr & Hrest & Ht).
    exists r. split; [done|]. rewrite Ht. split; [|done].
    cbn. f_equal. by rewrite Hrest, fmap_app.
Qed.

End Consumption.

(** X2.  Whatever the middlewares do ([next()] called never, once or many
    times, errors caught or not), the handlers [composeMiddlewares]
    invokes are a first part of the queue order, last-configured
    middleware first and inner handler last: none is invoked twice, none
    out of turn, and the last-configured one (the inner handler when there
    is no middleware) is always the first. *)
Theorem composeMiddlewares_invokes_in_queue_order state req conn inner :
  exists r,
    composeMiddlewares state req conn inner = Some r
    /\ invocations (trace r) ++ (label <$> pending r)
       = queue_order (length (default [] (middlewares state)))
    /\ NoDup (invocations (trace r))
    /\ head (invocations (trace r))
       = Some match length (default [] (middlewares state)) with
              | O => Inner
              | S n => Middleware n
              end.
Proof.
  destruct (composeMiddlewares_consumes state req conn inner)
    as (r & Hr & Horder & Hne).
  exists r. split; [done|]. split; [done|]. split.
  - pose proof (queue_order_NoDup (length (default [] (middlewares state))))
      as Hnodup.
    rewrite <- Horder in Hnodup. by apply NoDup_app in Hnodup as [? _].
  - destruct (invocations (trace r)) as [|first others]; [done|].
    cbn in Horder. cbn [head].
    destruct (length (default [] (middlewares state))) as [|n].
    + by injection Horder as -> _.
    + unfold queue_order in Horder.
      rewrite seq_S, reverse_snoc in Horder. by injection Horder as -> _.
Qed.

(** X3.  The inner handler is reached only through every middleware: if
    it was invoked, each configured middleware was invoked before it, once,
    last-configured first, and nothing is left queued. *)
Theorem inner_handler_after_every_middleware state req conn inner r :
  composeMiddlewares state req conn inner = Some r ->
  Inner ∈ invocations (trace r) ->
  invocations (trace r)
  = queue_order (length (default [] (middlewares state)))
  /\ pending r = [].
Proof.
  intros Hr Hin.
  destruct (composeMiddlewares_consumes state req conn inner)
    as (r' & Hr' & Horder & _).
  rewrite Hr in Hr'. injection Hr' as <-.
  assert (Hnil : label <$> pending r = []).
  { destruct (label <$> pending r) as [|l ls] using rev_ind; [done|].
    unfold queue_order in Horder. rewrite app_assoc in Horder.
    apply app_inj_tail in Horder as [Horder _].
    destruct (Inner_not_Middleware
                (reverse (seq 0 (length (default [] (middlewares state)))))).
    rewrite <- Horder. apply elem_of_app. by left. }
  rewrite Hnil, app_nil_r in Horder. split; [done|].
  by apply fmap_nil_inv in Hnil.
Qed.

Lemma inner_handler_after_every_middleware_witness :
  exists r,
    composeMiddlewares
      (Sample.with_middlewares [Sample.redirects_test; Sample.ga_test])
      (Sample.request "/cat.png" "") Sample.CONN_INFO
      (handler (Sample.deps false)) = Some r
    /\ Inner ∈ invocations (trace r)
    /\ invocations (trace r) = [Middleware 1; Middleware 0; Inner]
    /\ pending r = [].
Proof.
  eexists. split; [vm_compute; reflexivity|].
  assert (Hin : Inner ∈ [Middleware 1; Middleware 0; Inner])
    by (apply list_elem_of_In; cbn; tauto).
  split; [exact Hin|].
  exact (inner_handler_after_every_middleware
           (Sample.with_middlewares [Sample.redirects_test; Sample.ga_test])
           (Sample.request "/cat.png" "") Sample.CONN_INFO
           (handler (Sample.deps false)) _ eq_refl Hin).
Defined.

(** X6.  In every call of the handler [createBlogHandler] returns that
    settles, whatever the middlewares did, a call of [next()] took a
    handler off the queue each time: at most one invocation per
    middleware and one of the inner handler happened, and none at all
    happened exactly when the normalizer redirected the request. *)
Theorem createBlogHandler_settled_invocations deps state req conn r :
  createBlogHandler deps state req conn = Some r ->
  length (invocations (trace r))
  <= S (length (default [] (middlewares state)))
  /\ (invocations (trace r) = [] <-> has_trailing_slash req).
Proof.
  destruct (decide (1 < String.length (pathname (req_url req))
                    /\ endsWith_slash (pathname (req_url req)) = true))
    as [Htrail|Hno].
  - rewrite createBlogHandler_trailing by done. intros [= <-]. cbn [trace].
    change (invocations []) with (@nil Label). cbn. split; [lia|]. done.
  - rewrite createBlogHandler_no_trailing by done.
    destruct (composeMiddlewares_consumes state req conn (handler deps))
      as (r' & Hr & Horder & Hne).
    rewrite Hr. intros [= <-]. split; [|by split].
    apply (f_equal length) in Horder.
    unfold queue_order in Horder.
    rewrite !length_app, !length_fmap, length_reverse, length_seq in Horder.
    cbn in Horder. lia.
Qed.

Lemma createBlogHandler_settled_invocations_witness :
  exists r,
    createBlogHandler (Sample.deps false)
      (Sample.with_middlewares [Sample.twice; Sample.forward])
      (Sample.request "/cat.png" "") Sample.CONN_INFO = Some r
    /\ length (invocations (trace r)) <= 3
    /\ invocations (trace r) <> [].
Proof.
  eexists. split; [vm_compute; reflexivity|].
  destruct (createBlogHandler_settled_invocations (Sample.deps false)
              (Sample.with_middlewares [Sample.twice; Sample.forward])
              (Sample.request "/cat.png" "") Sample.CONN_INFO _ eq_refl)
    as [Hbound Hnone].
  split; [exact Hbound|]. discriminate.
Defined.

(** ** Short circuits and the exhausted queue *)

(** X4.  When the last-configured middleware completes of its own (it
    returns or raises without calling [next()]), that is the completion of
    the whole call, whatever the middlewares configured before it are:
    none of them and not the inner handler is invoked, they are left
    queued. *)
Theorem composeMiddlewares_short_circuit state req conn inner mws mw c :
  middlewares state = Some (mws ++ [mw]) ->
  Completes (mw req (mkBlogContext (settings state) conn)) c ->
  exists r,
    composeMiddlewares state req conn inner = Some r
    /\ completion r = c
    /\ invocations (trace r) = [Middleware (length mws)]
    /\ pending r
       = reverse_order mws inner req (mkBlogContext (settings state) conn).
Proof.
  intros Hm Hc.
  rewrite composeMiddlewares_queue, Hm.
  change (default [] (Some (mws ++ [mw]))) with (mws ++ [mw]).
  rewrite reverse_order_last. cbn [shift_and_call step_of run label].
  destruct (run_queue_Completes _ _
              (reverse_order mws inner req
                 (mkBlogContext (settings state) conn)) Hc)
    as (r & -> & Hcr & Hp & Ht).
  cbn. eexists. split; [reflexivity|]. cbn.
  by rewrite invocations_Invoked, Ht.
Qed.

Lemma composeMiddlewares_short_circuit_witness :
  exists r,
    composeMiddlewares
      (Sample.with_middlewares [Sample.twice; Sample.redirects_test])
      (Sample.request "/to_second" "") Sample.CONN_INFO
      (handler (Sample.deps false)) = Some r
    /\ completion r
       = Normal (mkResponse 307 [("location", "/second")] None)
    /\ invocations (trace r) = [Middleware 1].
Proof.
  destruct (composeMiddlewares_short_circuit
              (Sample.with_middlewares [Sample.twice; Sample.redirects_test])
              (Sample.request "/to_second" "") Sample.CONN_INFO
              (handler (Sample.deps false))
              [Sample.twice] Sample.redirects_test
              (Normal (mkResponse 307 [("location", "/second")] None)))
    as (r & Hr & Hc & Ht & _).
  - reflexivity.
  - vm_compute. constructor.
  - exists r. split; [exact Hr|]. split; [exact Hc|exact Ht].
Defined.

(** X5.  Against an exhausted queue every call of [next()] raises the
    TypeError of calling [undefined], however often the program calls it:
    the run is the program with [next()] fixed to that error, and the
    queue stays empty. *)
Theorem next_on_exhausted_queue p :
  exists r,
    run_queue p [] = Some r
    /\ pending r = []
    /\ observe r = with_next (Abrupt not_a_function, []) p.
Proof.
  induction p as [res|e|f IHf g IHg|eff k (r & Hr & Hp & Ho)].
  - rewrite run_queue_Return. eauto.
  - rewrite run_queue_Throw. eauto.
  - rewrite run_queue_AwaitNext_nil.
    destruct (IHg not_a_function) as (r & Hr & Hp & Ho).
    exists r. split; [done|]. split; [done|].
    rewrite Ho. cbn. by destruct (with_next _ (g not_a_function)).
  - rewrite run_queue_Perform, Hr. cbn.
    eexists. split; [reflexivity|]. split; [done|].
    rewrite observe_logged. unfold observe in Ho.
    destruct (with_next _ k). by inversion Ho.
Qed.

(** ** The analytics middleware, downstream of anything *)

Section Analytics.

Variables (gaKey : string) (mw : BlogMiddleware).
Hypothesis Hga : ga gaKey = Normal mw.

(** The program of the middleware [ga] returns. *)
Lemma ga_program request ctx :
  mw request ctx
  = AwaitNext
      (fun res =>
         Perform (GaReport gaKey request (connInfo ctx) res None) (Return res))
      (fun err =>
         Perform (GaReport gaKey request (connInfo ctx)
                    (internal_server_error err) (Some err))
           (Return (internal_server_error err))).
Proof.
  unfold ga in Hga. destruct (String.length gaKey =? 0); [done|].
  by injection Hga as <-.
Qed.

(** What [ga] makes of the call of [next()]. *)
Lemma ga_run request ctx handlers r0 :
  run_queue await_next handlers = Some r0 ->
  run_queue (mw request ctx) handlers
  = Some (mkResult
            (Normal match completion r0 with
                    | Normal res => res
                    | Abrupt e => errorHandler e
                    end)
            (pending r0)
            (trace r0
             ++ [Did (GaReport gaKey request (connInfo ctx)
                        match completion r0 with
                        | Normal res => res
                        | Abrupt e => errorHandler e
                        end
                        match completion r0 with
                        | Normal _ => None
                        | Abrupt e => Some e
                        end)])).
Proof.
  intros Hr0. rewrite ga_program, (run_queue_await_next _ _ _ _ Hr0).
  destruct (completion r0); by rewrite run_queue_Perform, run_queue_Return.
Qed.

End Analytics.

(** X7.  With a [ga] middleware configured last, an [Error] thrown
    anywhere behind it never leaves the handler: once the [next()] of [ga]
    settles, the handler resolves with a response, the one [next()]
    resolved to or the 500 of [errorHandler] for the error it raised,
    after the one report of [ga]. *)
Theorem ga_configured_last_responds
    deps state req conn mws gaKey mw r0 :
  ga gaKey = Normal mw ->
  middlewares state = Some (mws ++ [mw]) ->
  ~ has_trailing_slash req ->
  run_queue await_next
    (reverse_order mws (handler deps) req
       (mkBlogContext (settings state) conn)) = Some r0 ->
  exists res,
    createBlogHandler deps state req conn
    = Some (mkResult (Normal res) (pending r0)
              (Invoked (Middleware (length mws))
               :: trace r0
               ++ [Did (GaReport gaKey req conn res
                          match completion r0 with
                          | Normal _ => None
                          | Abrupt e => Some e
                          end)]))
    /\ res = match completion r0 with
             | Normal res0 => res0
             | Abrupt e => errorHandler e
             end.
Proof.
  intros Hga Hm Hno Hr0.
  rewrite createBlogHandler_no_trailing, composeMiddlewares_queue, Hm
    by done.
  change (default [] (Some (mws ++ [mw]))) with (mws ++ [mw]).
  rewrite reverse_order_last. cbn [shift_and_call step_of run label].
  rewrite (ga_run _ _ Hga _ _ _ _ Hr0). cbn. eauto.
Qed.

Lemma ga_configured_last_responds_witness :
  exists r,
    createBlogHandler Sample.failing_deps
      (Sample.with_middlewares [Sample.twice; Sample.ga_test])
      (Sample.request "/" "") Sample.CONN_INFO = Some r
    /\ completion r = Normal (errorHandler (new_Error "render failed")).
Proof.
  destruct (ga_configured_last_responds Sample.failing_deps
              (Sample.with_middlewares [Sample.twice; Sample.ga_test])
              (Sample.request "/" "") Sample.CONN_INFO
              [Sample.twice] "GA-ANALYTICS-KEY" Sample.ga_test
              (mkResult (Abrupt (new_Error "render failed")) []
                 [Invoked (Middleware 0); Invoked Inner]))
    as (res & Hr & Hres).
  - reflexivity.
  - reflexivity.
  - intros [Hlen _]. vm_compute in Hlen. lia.
  - vm_compute. reflexivity.
  - eexists. split; [exact Hr|]. cbn. by rewrite Hres.
Defined.

(** X8.  [ga] calls [next()] once and reports once, after it, exactly what
    it returns: the downstream response with no error, or, when
    downstream raised, the 500 response of [errorHandler] together with
    the error.  It touches neither the response nor the queue. *)
Theorem ga_reports_what_it_returns gaKey mw request ctx handlers r0 :
  ga gaKey = Normal mw ->
  run_queue await_next handlers = Some r0 ->
  exists res err,
    run_queue (mw request ctx) handlers
    = Some (mkResult (Normal res) (pending r0)
              (trace r0
               ++ [Did (GaReport gaKey request (connInfo ctx) res err)]))
    /\ match completion r0 with
       | Normal res0 => res = res0 /\ err = None
       | Abrupt e => res = errorHandler e /\ err = Some e
       end.
Proof.
  intros Hga Hr0. rewrite (ga_run _ _ Hga _ _ _ _ Hr0).
  eexists _, _. split; [reflexivity|]. by destruct (completion r0).
Qed.

Lemma ga_reports_what_it_returns_witness :
  exists res err,
    run_queue (Sample.ga_test (Sample.request "/" "") Sample.ctx)
      [mkStep Inner (Throw (new_Error "boom"))]
    = Some (mkResult (Normal res) []
              ([Invoked Inner]
               ++ [Did (GaReport "GA-ANALYTICS-KEY" (Sample.request "/" "")
                          Sample.CONN_INFO res err)]))
    /\ res = errorHandler (new_Error "boom")
    /\ err = Some (new_Error "boom").
Proof.
  exact (ga_reports_what_it_returns "GA-ANALYTICS-KEY" Sample.ga_test
           (Sample.request "/" "") Sample.ctx
           [mkStep Inner (Throw (new_Error "boom"))]
           (mkResult (Abrupt (new_Error "boom")) [] [Invoked Inner])
           eq_refl eq_refl).
Defined.

(** X9.  When no redirect applies, [redirects] hands on what [next()]
    resolves to without any effect of its own; when [next()] raises, it
    logs the error once through [console.error] and answers with the 500
    response of [errorHandler].  The queue is left as downstream left it. *)
Theorem redirects_logs_downstream_errors redirectMap req ctx handlers r0 :
  truthy (Js.get redirectMap (pathname (req_url req))) = false ->
  truthy (Js.get redirectMap (slice_1 (pathname (req_url req)))) = false ->
  run_queue await_next handlers = Some r0 ->
  run_queue (redirects redirectMap req ctx) handlers
  = Some (mkResult
            (Normal match completion r0 with
                    | Normal res => res
                    | Abrupt e => errorHandler e
                    end)
            (pending r0)
            (trace r0
             ++ match completion r0 with
                | Normal _ => []
                | Abrupt e => [Did (ConsoleError e)]
                end)).
Proof.
  intros H1 H2 Hr0.
  rewrite redirects_no_match, (run_queue_await_next _ _ _ _ Hr0) by done.
  destruct (completion r0).
  - by rewrite run_queue_Return.
  - by rewrite run_queue_Perform, run_queue_Return.
Qed.

Lemma redirects_logs_downstream_errors_witness :
  run_queue
    (redirects Sample.redirect_map (Sample.request "/" "") Sample.ctx)
    [mkStep Inner (Throw (new_Error "boom"))]
  = Some (mkResult (Normal (errorHandler (new_Error "boom"))) []
            ([Invoked Inner] ++ [Did (ConsoleError (new_Error "boom"))])).
Proof.
  exact (redirects_logs_downstream_errors Sample.redirect_map
           (Sample.request "/" "") Sample.ctx
           [mkStep Inner (Throw (new_Error "boom"))]
           (mkResult (Abrupt (new_Error "boom")) [] [Invoked Inner])
           eq_refl eq_refl eq_refl).
Defined.

(** ** The shipped middlewares in the chain *)

Lemma NoNext_AtMostOnce p : NoNext p -> AtMostOnce p.
Proof. induction 1; by constructor. Qed.

Lemma Shipped_AtMostOnce mw req ctx : Shipped mw -> AtMostOnce (mw req ctx).
Proof.
  intros [redirectMap|gaKey mw' Hga].
  - unfold redirects.
    destruct (truthy (if negb _ then _ else _)).
    + destruct (if negb _ then _ else _);
        [destruct (new_Headers _)|..]; repeat constructor.
    + repeat constructor.
  - rewrite (ga_program _ _ Hga). repeat constructor.
Qed.

(** X11.  Any list of [redirects] and [ga] middlewares composes as nested
    wrappers around the inner handler: the last-configured one outermost,
    each seeing through [next()] what the ones configured before it and
    the inner handler produce. *)
Theorem shipped_middlewares_nest deps state req conn mws :
  middlewares state = Some mws ->
  Forall Shipped mws ->
  exists r,
    composeMiddlewares state req conn (handler deps) = Some r
    /\ observe r
       = chain (reverse_order mws (handler deps) req
                  (mkBlogContext (settings state) conn)).
Proof.
  intros Hm Hmws. rewrite composeMiddlewares_queue, Hm.
  change (default [] (Some mws)) with mws.
  apply shift_and_call_chain, AtMostOnce_reverse_order.
  - eapply Forall_impl; [exact Hmws|].
    intros mw Hmw. by apply Shipped_AtMostOnce.
  - apply NoNext_AtMostOnce, handler_NoNext.
Qed.

Lemma shipped_middlewares_nest_witness :
  exists r,
    composeMiddlewares
      (Sample.with_middlewares [Sample.redirects_test; Sample.ga_test])
      (Sample.request "/to_second" "") Sample.CONN_INFO
      (handler (Sample.deps false)) = Some r
    /\ observe r
       = chain (reverse_order [Sample.redirects_test; Sample.ga_test]
                  (handler (Sample.deps false))
                  (Sample.request "/to_second" "") Sample.ctx).
Proof.
  apply (shipped_middlewares_nest (Sample.deps false)
           (Sample.with_middlewares [Sample.redirects_test; Sample.ga_test])
           (Sample.request "/to_second" "") Sample.CONN_INFO
           [Sample.redirects_test; Sample.ga_test]).
  - reflexivity.
  - constructor; [constructor|].
    constructor; [|constructor].
    by apply (Shipped_ga "GA-ANALYTICS-KEY").
Defined.

(** ** What the redirect map can and cannot do *)

Section RedirectMap.










(** No name that starts with the separator is inherited. *)
Lemma inherited_slash key : inherited (String "/" key) = false.
Proof.
  unfold inherited, object_prototype_names.
  apply bool_decide_eq_false_2. intros H.
  repeat (apply elem_of_cons in H as [H|H]; [discriminate|]).
  by apply elem_of_nil in H.
Qed.

Lemma standard_methods_inherited key :
  key ∈ standard_methods -> inherited key = true.
Proof.
  unfold standard_methods. intros H.
  repeat (apply elem_of_cons in H as [->|H]; [reflexivity|]).
  by apply elem_of_nil in H.
Qed.


End RedirectMap.





(** X12.  A request whose pathname without its first character names a
    method every object has ([/toString], [/constructor], ...) and matches
    no key of the map does not fall through: the inherited method is
    truthy but not a string, and [redirects] raises a TypeError instead
    of calling [next()]. *)
Theorem redirects_raises_on_inherited_name redirectMap req ctx :
  truthy (Js.get redirectMap (pathname (req_url req))) = false ->
  redirectMap !! slice_1 (pathname (req_url req)) = None ->
  slice_1 (pathname (req_url req)) ∈ standard_methods ->
  exists e,
    redirects redirectMap req ctx = Throw e
    /\ name e = "TypeError"
    /\ forall handlers,
         run_queue (redirects redirectMap req ctx) handlers
         = Some (mkResult (Abrupt e) handlers []).
Proof.
  intros Hfull Hown Hname.
  assert (Hget : Js.get redirectMap (slice_1 (pathname (req_url req)))
                 = PInherited).
  { unfold Js.get. by rewrite Hown, standard_methods_inherited. }
  assert (Hprog : redirects redirectMap req ctx
                  = Throw (new_TypeError
                             "maybeRedirect.startsWith is not a function")).
  { unfold redirects. rewrite Hfull. cbn [negb]. by rewrite Hget. }
  eexists. split; [exact Hprog|]. split; [done|].
  intros handlers. by rewrite Hprog, run_queue_Throw.
Qed.

Lemma redirects_raises_on_inherited_name_witness :
  exists e,
    redirects Sample.redirect_map (Sample.request "/toString" "") Sample.ctx
    = Throw e
    /\ name e = "TypeError".
Proof.
  destruct (redirects_raises_on_inherited_name Sample.redirect_map
              (Sample.request "/toString" "") Sample.ctx)
    as (e & He & Hn & _).
  - reflexivity.
  - reflexivity.
  - apply list_elem_of_In. cbn. tauto.
  - exists e. split; [exact He|exact Hn].
Defined.

(** X13.  A key may be written with or without the leading separator: for
    a request to [/key], a map that has the target under ["/key"] and a
    map that has it only under ["key"] have [redirects] do the same; when
    the location of the target is a value [Headers] accepts, that is the
    307 with the location as [Headers] stores it. *)
Theorem redirects_key_spelling m1 m2 key target req ctx :
  pathname (req_url req) = "/" +:+ key ->
  target <> "" ->
  m1 !! ("/" +:+ key) = Some target ->
  m2 !! ("/" +:+ key) = None ->
  m2 !! key = Some target ->
  redirects m1 req ctx = redirects m2 req ctx
  /\ forall v,
       header_value (location_of target) = Normal v ->
       redirects m2 req ctx
       = Return (mkResponse 307 [("location", v)] None).
Proof.
  intros Hpath Hne H1 H2 H3.
  assert (Hfull : truthy (Js.get m2 (pathname (req_url req))) = false).
  { rewrite Hpath. unfold Js.get. rewrite H2.
    change ("/" +:+ key) with (String "/" key). by rewrite inherited_slash. }
  rewrite (redirects_full m1 req ctx target), (redirects_trimmed m2 req ctx target);
    [ |done| |done| |done].
  - split; [done|]. intros v Hv. by apply redirect_to_Normal.
  - by rewrite Hpath.
  - by rewrite Hpath.
Qed.

Lemma redirects_key_spelling_witness :
  redirects {[ "/a" := "b" ]} (Sample.request "/a" "") Sample.ctx
  = redirects {[ "a" := "b" ]} (Sample.request "/a" "") Sample.ctx.
Proof.
  apply (redirects_key_spelling {[ "/a" := "b" ]} {[ "a" := "b" ]} "a" "b"
           (Sample.request "/a" "") Sample.ctx).
  - reflexivity.
  - discriminate.
  - reflexivity.
  - reflexivity.
  - reflexivity.
Defined.

(** ** The normalizer, again *)

Section Trailing.

Lemma slice_0_neg1_length s :
  endsWith_slash s = true ->
  String.length (slice_0_neg1 s) + 1 = String.length s.
Proof.
  unfold endsWith_slash. induction s as [|a s IH]; [done|].
  destruct s as [|b s]; [done|].
  intros H. change (S (String.length (slice_0_neg1 (String b s)) + 1)
                    = S (String.length (String b s))).
  f_equal. by apply IH.
Qed.

(** A path from which cutting the first character leaves [key] ends the
    way [key] does. *)
Lemma slice_1_trailing path key :
  1 < String.length key -> endsWith_slash key = true ->
  slice_1 path = key ->
  1 < String.length path /\ endsWith_slash path = true.
Proof.
  intros Hlen Hslash Hcut. destruct path as [|a path]; cbn in Hcut; subst.
  - cbn in Hlen. lia.
  - split; [cbn; lia|]. by destruct key.
Qed.

End Trailing.

(** X14.  The redirect of the normalizer cannot loop: its target has a
    path that is one character shorter and not empty; and the paths ["/"]
    and [""] are never redirected, they go to the chain. *)
Theorem normalizer_shortens_path deps state req conn :
  (has_trailing_slash req ->
   exists r res path,
     createBlogHandler deps state req conn = Some r
     /\ completion r = Normal res
     /\ get_header "location" res
        = Some (Http.href (set_pathname (req_url req) path))
     /\ String.length path + 1 = String.length (pathname (req_url req))
     /\ path <> "")
  /\ (pathname (req_url req) = "/" \/ pathname (req_url req) = "" ->
      createBlogHandler deps state req conn
      = composeMiddlewares state req conn (handler deps)).
Proof.
  split.
  - intros Htrail. rewrite createBlogHandler_trailing by done.
    eexists _, _, (slice_0_neg1 (pathname (req_url req))).
    split; [reflexivity|]. cbn. split; [done|]. split; [done|].
    destruct Htrail as [Hlen Hslash].
    pose proof (slice_0_neg1_length _ Hslash) as Hcut.
    split; [done|]. intros Hnil. rewrite Hnil in Hcut. cbn in Hcut. lia.
  - intros Hroot. apply createBlogHandler_no_trailing.
    intros [Hlen _]. destruct Hroot as [Hroot|Hroot];
      rewrite Hroot in Hlen; cbn in Hlen; lia.
Qed.

Lemma normalizer_shortens_path_witness :
  (exists r res,
     createBlogHandler (Sample.deps false) (Sample.with_middlewares [])
       (Sample.request "/a//" "") Sample.CONN_INFO = Some r
     /\ completion r = Normal res
     /\ get_header "location" res = Some "https://blog.deno.dev/a/")
  /\ createBlogHandler (Sample.deps false) (Sample.with_middlewares [])
       (Sample.request "/" "") Sample.CONN_INFO
     = composeMiddlewares (Sample.with_middlewares [])
         (Sample.request "/" "") Sample.CONN_INFO (handler (Sample.deps false)).
Proof.
  destruct (normalizer_shortens_path (Sample.deps false)
              (Sample.with_middlewares []) (Sample.request "/a//" "")
              Sample.CONN_INFO) as [Hcut _].
  destruct (normalizer_shortens_path (Sample.deps false)
              (Sample.with_middlewares []) (Sample.request "/" "")
              Sample.CONN_INFO) as [_ Hroot].
  split.
  - destruct Hcut as (r & res & path & Hr & Hc & _).
    + split; [vm_compute; lia|reflexivity].
    + exists r, res. split; [exact Hr|]. split; [exact Hc|].
      vm_compute in Hr. injection Hr as <-. injection Hc as <-. reflexivity.
  - apply Hroot. by left.
Defined.

(** X15.  A key of the redirect map that is longer than one character and
    ends with the separator never takes effect: a request whose pathname,
    or pathname without its first character, is that key is answered by
    the normalizer before any middleware runs. *)
Theorem trailing_separator_key_never_matches deps state req conn key :
  1 < String.length key ->
  endsWith_slash key = true ->
  pathname (req_url req) = key \/ slice_1 (pathname (req_url req)) = key ->
  createBlogHandler deps state req conn
  = Some (mkResult
            (Normal (Response_redirect
                       (Http.href (set_pathname (req_url req)
                                     (slice_0_neg1 (pathname (req_url req)))))
                       307))
            [] []).
Proof.
  intros Hlen Hslash Hkey. apply createBlogHandler_trailing.
  unfold has_trailing_slash.
  destruct Hkey as [Hfull|Hcut]; [by rewrite Hfull|].
  by apply (slice_1_trailing _ key).
Qed.

Lemma trailing_separator_key_never_matches_witness :
  createBlogHandler (Sample.deps false)
    (Sample.with_middlewares [redirects {[ "docs/" := "manual" ]}])
    (Sample.request "/docs/" "") Sample.CONN_INFO
  = Some (mkResult
            (Normal (mkResponse 307
                       [("location", "https://blog.deno.dev/docs")] None))
            [] []).
Proof.
  apply (trailing_separator_key_never_matches (Sample.deps false)
           (Sample.with_middlewares [redirects {[ "docs/" := "manual" ]}])
           (Sample.request "/docs/" "") Sample.CONN_INFO "docs/").
  - vm_compute. lia.
  - reflexivity.
  - right. reflexivity.
Defined.

(** ** The index page *)

Section IndexPage.

Variable deps : Deps.

(** The options the inner handler gives [html] on the root path. *)
Lemma handler_root_options req ctx :
  pathname (req_url req) = "/" ->
  exists options,
    handler deps req ctx = lift (html deps options)
    /\ html_title options = default "My Blog" (title (state ctx))
    /\ html_lang options = default "en" (lang (state ctx))
    /\ (favicon (state ctx) = None ->
        html_links options
        = [mkLinkTag
             (match canonicalUrl (state ctx) with
              | Some (String a s) => String a s
              | _ => origin (req_url req)
              end +:+ "/") "canonical" None None])
    /\ html_styles options
       = match style (state ctx) with
         | Some (String a s) => [String a s]
         | _ => []
         end
    /\ html_scripts options
       = (if IS_DEV deps then Some [mkScript "/hmr.js"] else None)
    /\ html_meta options
       = [ ("theme-color",
            match theme (state ctx) with
            | Some dark => MetaString "#000"
            | _ => MetaNull
            end);
           ("description", meta_of (description (state ctx)));
           ("og:title", meta_of (title (state ctx)));
           ("og:description", meta_of (description (state ctx)));
           ("og:image",
            match ogImage (state ctx) with
            | Some (OgString s) => MetaString s
            | Some (OgObject url _) => MetaString url
            | None => meta_of (cover (state ctx))
            end);
           ("twitter:title", meta_of (title (state ctx)));
           ("twitter:description", meta_of (description (state ctx)));
           ("twitter:image",
            match ogImage (state ctx) with
            | Some (OgString s) => MetaString s
            | Some (OgObject url _) => MetaString url
            | None => meta_of (cover (state ctx))
            end);
           ("twitter:card",
            match ogImage (state ctx) with
            | Some (OgString (String _ _)) => MetaString "summary_large_image"
            | Some (OgObject (String _ _) card) => MetaString card
            | _ => MetaUndefined
            end) ].
Proof.
  intros Hroot. unfold handler. rewrite Hroot.
  rewrite !andb_false_r. cbn [String.eqb Ascii.eqb]. cbn match.
  eexists. split; [reflexivity|]. cbn.
  split; [done|]. split; [done|]. split; [by intros ->|].
  split; [done|]. split; [done|].
  by destruct (ogImage (state ctx)) as [[[|? ?]|[|? ?] ?]|].
Qed.

(** The run of a program that only lifts a completion. *)
Lemma run_queue_lift c handlers :
  run_queue (lift c) handlers = Some (mkResult c handlers []).
Proof. destruct c; [apply run_queue_Return|apply run_queue_Throw]. Qed.

End IndexPage.

(** X16.  On the index page the Open Graph and the Twitter tags agree:
    title, description and image are the same values; and the Twitter
    card is set only when there is an open-graph image URL that is not
    empty: [summary_large_image] for an image given as a string, the
    configured card for one given as an object. *)
Theorem index_page_social_tags deps req ctx :
  pathname (req_url req) = "/" ->
  exists options,
    handler deps req ctx = lift (html deps options)
    /\ meta_value "og:title" options = meta_value "twitter:title" options
    /\ meta_value "og:description" options
       = meta_value "twitter:description" options
    /\ meta_value "og:image" options = meta_value "twitter:image" options
    /\ meta_value "twitter:card" options
       = Some match ogImage (state ctx) with
              | Some (OgString (String _ _)) =>
                  MetaString "summary_large_image"
              | Some (OgObject (String _ _) card) => MetaString card
              | _ => MetaUndefined
              end.
Proof.
  intros Hroot.
  destruct (handler_root_options deps req ctx Hroot)
    as (options & Hprog & _ & _ & _ & _ & _ & Hmeta).
  exists options. split; [done|].
  unfold meta_value. rewrite Hmeta. by cbn.
Qed.

Lemma index_page_social_tags_witness :
  exists options,
    handler (Sample.deps false) (Sample.request "/" "") Sample.ctx
    = lift (html (Sample.deps false) options)
    /\ meta_value "og:title" options = meta_value "twitter:title" options
    /\ meta_value "twitter:card" options = Some MetaUndefined.
Proof.
  destruct (index_page_social_tags (Sample.deps false)
              (Sample.request "/" "") Sample.ctx eq_refl)
    as (options & Hprog & Htitle & _ & _ & Hcard).
  exists options. split; [exact Hprog|]. split; [exact Htitle|exact Hcard].
Defined.

(** X17.  The index page and the hot-reload endpoint fit together: outside
    hot-reload mode the page loads no script; in hot-reload mode it loads
    exactly one, and a request for the path of that script is answered by
    the inner handler with the client script as JavaScript. *)
Theorem index_page_script_is_served deps req ctx :
  pathname (req_url req) = "/" ->
  exists options,
    handler deps req ctx = lift (html deps options)
    /\ (IS_DEV deps = false -> html_scripts options = None)
    /\ (IS_DEV deps = true ->
        exists script,
          html_scripts options = Some [script]
          /\ forall req' ctx',
               pathname (req_url req') = src script ->
               handler deps req' ctx'
               = Return (mkResponse 200
                           [("content-type", "application/javascript")]
                           (Some (HMR_CLIENT deps)))).
Proof.
  intros Hroot.
  destruct (handler_root_options deps req ctx Hroot)
    as (options & Hprog & _ & _ & _ & _ & Hscripts & _).
  exists options. split; [done|]. rewrite Hscripts. split.
  - by intros ->.
  - intros Hdev. rewrite Hdev. exists (mkScript "/hmr.js").
    split; [done|]. intros req' ctx' Hpath. cbn in Hpath.
    unfold handler. by rewrite Hdev, Hpath.
Qed.

Lemma index_page_script_is_served_witness :
  exists options script,
    handler (Sample.deps true) (Sample.request "/" "") Sample.ctx
    = lift (html (Sample.deps true) options)
    /\ html_scripts options = Some [script]
    /\ handler (Sample.deps true)
         (Sample.request (src script) "") Sample.ctx
       = Return (mkResponse 200 [("content-type", "application/javascript")]
                   (Some (HMR_CLIENT (Sample.deps true)))).
Proof.
  destruct (index_page_script_is_served (Sample.deps true)
              (Sample.request "/" "") Sample.ctx eq_refl)
    as (options & Hprog & _ & Hdev).
  destruct (Hdev eq_refl) as (script & Hscript & Hserved).
  exists options, script. split; [exact Hprog|]. split; [exact Hscript|].
  apply Hserved. reflexivity.
Defined.

(** X1.  [configureBlog] ignores its [url] and [isDev] arguments: the
    handler built from its state behaves as the one built from the
    settings themselves.  Called without settings it yields a blog with
    no middleware whose index page has the title [My Blog], the language
    [en], the request origin as canonical URL, no style and no theme
    color, rendered by invoking the inner handler alone. *)
Theorem configureBlog_handler deps url isDev req conn :
  (forall s,
     createBlogHandler deps (configureBlog url isDev (Some s)) req conn
     = createBlogHandler deps s req conn)
  /\ (pathname (req_url req) = "/" ->
      exists r options,
        createBlogHandler deps (configureBlog url isDev None) req conn
        = Some r
        /\ completion r = html deps options
        /\ invocations (trace r) = [Inner]
        /\ html_title options = "My Blog"
        /\ html_lang options = "en"
        /\ html_links options
           = [mkLinkTag (origin (req_url req) +:+ "/") "canonical" None None]
        /\ html_styles options = []
        /\ meta_value "theme-color" options = Some MetaNull).
Proof.
  split.
  - intros [s mws]. reflexivity.
  - intros Hroot.
    rewrite createBlogHandler_no_trailing, composeMiddlewares_queue.
    + change (reverse_order _ _ _ _)
        with [mkStep Inner
                (handler deps req (mkBlogContext no_settings conn))].
      cbn [shift_and_call run label].
      destruct (handler_root_options deps req
                  (mkBlogContext no_settings conn) Hroot)
        as (options & -> & Htitle & Hlang & Hlinks & Hstyles & _ & Hmeta).
      rewrite run_queue_lift. cbn -[invocations].
      eexists _, options. split; [reflexivity|]. cbn -[invocations].
      split; [done|]. split; [done|]. split; [done|]. split; [done|].
      split; [by apply Hlinks|]. split; [done|].
      unfold meta_value. by rewrite Hmeta.
    + intros [Hlen _]. rewrite Hroot in Hlen. cbn in Hlen. lia.
Qed.

Lemma configureBlog_handler_witness :
  exists r options,
    createBlogHandler (Sample.deps false)
      (configureBlog "file:///main.ts" false None)
      (Sample.request "/" "") Sample.CONN_INFO = Some r
    /\ completion r = html (Sample.deps false) options
    /\ html_title options = "My Blog"
    /\ html_links options
       = [mkLinkTag "https://blog.deno.dev/" "canonical" None None].
Proof.
  destruct (proj2 (configureBlog_handler (Sample.deps false)
                     "file:///main.ts" false
                     (Sample.request "/" "") Sample.CONN_INFO) eq_refl)
    as (r & options & Hr & Hc & _ & Htitle & _ & Hlinks & _).
  exists r, options. split; [exact Hr|]. split; [exact Hc|].
  split; [exact Htitle|exact Hlinks].
Defined.

(** ** Redirects and analytics together *)

(** X18.  A [redirects] middleware configured last answers a mapped path
    before anything else runs: when the location of the target is a value
    [Headers] accepts, the response is its 307, and the whole trace is its
    own invocation, so a middleware configured before it (analytics, say)
    never sees, reports or logs the request, and the inner handler is not
    invoked. *)
Theorem redirect_configured_last_hides_request
    deps state req conn mws redirectMap target v :
  middlewares state = Some (mws ++ [redirects redirectMap]) ->
  ~ has_trailing_slash req ->
  redirectMap !! pathname (req_url req) = Some target ->
  target <> "" ->
  header_value (location_of target) = Normal v ->
  createBlogHandler deps state req conn
  = Some (mkResult
            (Normal (mkResponse 307 [("location", v)] None))
            (reverse_order mws (handler deps) req
               (mkBlogContext (settings state) conn))
            [Invoked (Middleware (length mws))]).
Proof.
  intros Hm Hno Hkey Hne Hv.
  rewrite createBlogHandler_no_trailing, composeMiddlewares_queue, Hm by done.
  change (default [] (Some (mws ++ [redirects redirectMap])))
    with (mws ++ [redirects redirectMap]).
  rewrite reverse_order_last. cbn [shift_and_call step_of run label].
  rewrite (redirects_full _ _ (mkBlogContext (settings state) conn) _
             Hkey Hne).
  fold (location_of target).
  by rewrite (redirect_to_Normal _ _ Hv), run_queue_Return.
Qed.

Lemma redirect_configured_last_hides_request_witness :
  createBlogHandler (Sample.deps false)
    (Sample.with_middlewares [Sample.ga_test; Sample.redirects_test])
    (Sample.request "/to_second" "") Sample.CONN_INFO
  = Some (mkResult
            (Normal (mkResponse 307 [("location", "/second")] None))
            (reverse_order [Sample.ga_test] (handler (Sample.deps false))
               (Sample.request "/to_second" "") Sample.ctx)
            [Invoked (Middleware 1)]).
Proof.
  apply (redirect_configured_last_hides_request (Sample.deps false)
           (Sample.with_middlewares [Sample.ga_test; Sample.redirects_test])
           (Sample.request "/to_second" "") Sample.CONN_INFO
           [Sample.ga_test] Sample.redirect_map "second" "/second").
  - reflexivity.
  - intros [_ Hslash]. vm_compute in Hslash. discriminate.
  - reflexivity.
  - discriminate.
  - reflexivity.
Defined.

(** X19.  With [ga] configured right after a [redirects] middleware, [ga]
    runs first and sees the redirect: for a mapped path whose location is
    a value [Headers] accepts, the response is the 307, [ga] reports that
    response once, with no error, and the middlewares configured before
    the two and the inner handler are not invoked. *)
Theorem ga_reports_redirect
    deps state req conn mws redirectMap target v gaKey mw :
  ga gaKey = Normal mw ->
  middlewares state = Some (mws ++ [redirects redirectMap; mw]) ->
  ~ has_trailing_slash req ->
  redirectMap !! pathname (req_url req) = Some target ->
  target <> "" ->
  header_value (location_of target) = Normal v ->
  createBlogHandler deps state req conn
  = Some (mkResult
            (Normal (mkResponse 307 [("location", v)] None))
            (reverse_order mws (handler deps) req
               (mkBlogContext (settings state) conn))
            [ Invoked (Middleware (S (length mws)));
              Invoked (Middleware (length mws));
              Did (GaReport gaKey req conn
                     (mkResponse 307 [("location", v)] None)
                     None) ]).
Proof.
  intros Hga Hm Hno Hkey Hne Hv.
  rewrite createBlogHandler_no_trailing, composeMiddlewares_queue, Hm by done.
  change (default [] (Some (mws ++ [redirects redirectMap; mw])))
    with (mws ++ [redirects redirectMap; mw]).
  replace (mws ++ [redirects redirectMap; mw])
    with ((mws ++ [redirects redirectMap]) ++ [mw])
    by (by rewrite <- app_assoc).
  rewrite !reverse_order_last, length_app. cbn [length].
  rewrite Nat.add_1_r. cbn [shift_and_call step_of run label].
  rewrite (ga_program _ _ Hga req (mkBlogContext (settings state) conn)),
    run_queue_AwaitNext_cons.
  cbn [run label step_of].
  rewrite (redirects_full _ _ (mkBlogContext (settings state) conn) _
             Hkey Hne).
  fold (location_of target).
  rewrite (redirect_to_Normal _ _ Hv), run_queue_Return. cbn.
  by rewrite run_queue_Perform, run_queue_Return.
Qed.

Lemma ga_reports_redirect_witness :
  exists r,
    createBlogHandler (Sample.deps false)
      (Sample.with_middlewares [Sample.redirects_test; Sample.ga_test])
      (Sample.request "/to_second" "") Sample.CONN_INFO = Some r
    /\ completion r
       = Normal (mkResponse 307 [("location", "/second")] None)
    /\ invocations (trace r) = [Middleware 1; Middleware 0].
Proof.
  eexists. split.
  - apply (ga_reports_redirect (Sample.deps false)
             (Sample.with_middlewares [Sample.redirects_test; Sample.ga_test])
             (Sample.request "/to_second" "") Sample.CONN_INFO
             [] Sample.redirect_map "second" "/second" "GA-ANALYTICS-KEY"
             Sample.ga_test).
    + reflexivity.
    + reflexivity.
    + intros [_ Hslash]. vm_compute in Hslash. discriminate.
    + reflexivity.
    + discriminate.
    + reflexivity.
  - split; reflexivity.
Defined.
